(** * fragment-bot: a shallow embedding of the inline-query handler

    The development follows the Python sources:
    - [config.py]                    constants,
    - [bot.py]                       query classification,
    - [services/price_converter.py]  numeric queries,
    - [services/rates.py]            currency rate cache,
    - [services/getgems.py]          floor price cache,
    - [services/result_articles.py]  buttons and articles,
    - [services/handler.py]          the marketplace page interpreter.

    Conventions of the model.
    - A Python [str] is a [string] of the Standard Library, that is a
      sequence of bytes.  On ASCII text the model and Python agree; the emoji
      constants of the source are carried as their UTF-8 bytes.  Case
      mapping, digit and white-space classes are the ASCII ones.
    - A Python [float] is an exact rational, an infinity or a NaN
      ([pyfloat]); binary64 rounding error and overflow are outside the
      model.
    - A function that can raise returns a [py_result]; a [try/except] that
      turns every exception into [None] returns an [option]. *)

From Stdlib Require Import String Ascii List Bool Arith ZArith QArith Qcanon Qround DecimalString Setoid Morphisms Lia.
Import ListNotations.

Set Warnings "-register-all".

Local Open Scope nat_scope.
Local Open Scope bool_scope.
Local Open Scope list_scope.
Local Open Scope string_scope.

(** ** Python values *)

Inductive py_result (A : Type) : Type :=
| Returns (a : A)
| Raises (e : string).
Arguments Returns {A} a.
Arguments Raises {A} e.

Definition bind {A B : Type} (m : py_result A) (k : A -> py_result B) : py_result B :=
  match m with
  | Returns a => k a
  | Raises e => Raises e
  end.

Notation "x <- m ;; k" := (bind m (fun x => k))
  (at level 61, m at next level, right associativity).

(** [try: ... except Exception: return None] around a computation whose
    normal result is already optional. *)
Definition except_None {A : Type} (m : py_result (option A)) : option A :=
  match m with
  | Returns o => o
  | Raises _ => None
  end.

(** ** Python strings *)

Module Str.

Definition code (c : ascii) : nat := nat_of_ascii c.

Definition in_range (lo hi : nat) (c : ascii) : bool :=
  ((lo <=? code c)%nat && (code c <=? hi)%nat)%bool.

Definition is_digit (c : ascii) : bool := in_range 48 57 c.
Definition is_lower (c : ascii) : bool := in_range 97 122 c.
Definition is_upper (c : ascii) : bool := in_range 65 90 c.

(** [str.isspace] on ASCII: tab, line feed, vertical tab, form feed,
    carriage return, the four separators 0x1c-0x1f and the space. *)
Definition is_space (c : ascii) : bool :=
  in_range 9 13 c || in_range 28 32 c.

(** The white space of C, which [int] and [float] skip at both ends of an
    ASCII string: the separators 0x1c-0x1f are not part of it. *)
Definition is_c_space (c : ascii) : bool :=
  in_range 9 13 c || Ascii.eqb c " "%char.

Definition lower_char (c : ascii) : ascii :=
  if is_upper c then ascii_of_nat (code c + 32) else c.

Fixpoint map (f : ascii -> ascii) (s : string) : string :=
  match s with
  | EmptyString => EmptyString
  | String c s' => String (f c) (map f s')
  end.

Fixpoint forallb (p : ascii -> bool) (s : string) : bool :=
  match s with
  | EmptyString => true
  | String c s' => p c && forallb p s'
  end.

(** [s.lower()] *)
Definition lower (s : string) : string := map lower_char s.

Fixpoint rev_onto (s acc : string) : string :=
  match s with
  | EmptyString => acc
  | String c s' => rev_onto s' (String c acc)
  end.

Definition rev (s : string) : string := rev_onto s EmptyString.

(** Stripping the characters of a class from both ends. *)
Fixpoint lstrip_by (space : ascii -> bool) (s : string) : string :=
  match s with
  | EmptyString => EmptyString
  | String c s' => if space c then lstrip_by space s' else s
  end.

Definition rstrip_by (space : ascii -> bool) (s : string) : string :=
  rev (lstrip_by space (rev s)).

Definition strip_by (space : ascii -> bool) (s : string) : string :=
  rstrip_by space (lstrip_by space s).

Definition rstrip (s : string) : string := rstrip_by is_space s.

(** [s.strip()] *)
Definition strip (s : string) : string := strip_by is_space s.

(** [sub in s] *)
Fixpoint contains (sub s : string) : bool :=
  prefix sub s ||
  match s with
  | EmptyString => false
  | String _ s' => contains sub s'
  end.

(** [s.startswith(p)] *)
Definition startswith (p s : string) : bool := prefix p s.

(** [s.replace(old, new)] for a non-empty [old]: occurrences are replaced
    from left to right and do not overlap; [skip] counts the characters of
    the occurrence just replaced that are still to be passed over. *)
Fixpoint replace_from (old new s : string) (skip : nat) : string :=
  match s with
  | EmptyString => EmptyString
  | String c s' =>
      match skip with
      | S k => replace_from old new s' k
      | O =>
          if prefix old s
          then new ++ replace_from old new s' (String.length old - 1)
          else String c (replace_from old new s' 0)
      end
  end.

(** With an empty [old] Python inserts [new] before every character and
    at the end. *)
Fixpoint intersperse (new s : string) : string :=
  match s with
  | EmptyString => new
  | String c s' => new ++ String c (intersperse new s')
  end.

Definition replace (old new s : string) : string :=
  match old with
  | EmptyString => intersperse new s
  | _ => replace_from old new s 0
  end.

(** [s[:n]] *)
Definition take (n : nat) (s : string) : string := substring 0 n s.

(** [s[-n:]] for [n > 0] *)
Definition take_last (n : nat) (s : string) : string :=
  substring (String.length s - n) n s.

Definition is_empty (s : string) : bool :=
  match s with
  | EmptyString => true
  | _ => false
  end.

(** Truthiness of an optional string: [None] and [""] are falsy. *)
Definition truthy (o : option string) : bool :=
  match o with
  | Some s => negb (is_empty s)
  | None => false
  end.

(** [f"{x}"] for a value that is a string or [None]. *)
Definition format_opt (o : option string) : string :=
  match o with
  | Some s => s
  | None => "None"
  end.

End Str.

(** ** Regular expressions of the [re] module *)

Module Re.

Inductive regex : Type :=
| Void
| Eps
| Cls (p : ascii -> bool)
| Seq (r1 r2 : regex)
| Alt (r1 r2 : regex)
| Star (r : regex).

(** [r+] and [r{n,}] *)
Definition Plus (r : regex) : regex := Seq r (Star r).

Fixpoint AtLeast (n : nat) (r : regex) : regex :=
  match n with
  | O => Star r
  | S k => Seq r (AtLeast k r)
  end.

Fixpoint nullable (r : regex) : bool :=
  match r with
  | Void => false
  | Eps => true
  | Cls _ => false
  | Seq r1 r2 => nullable r1 && nullable r2
  | Alt r1 r2 => nullable r1 || nullable r2
  | Star _ => true
  end.

Fixpoint deriv (c : ascii) (r : regex) : regex :=
  match r with
  | Void => Void
  | Eps => Void
  | Cls p => if p c then Eps else Void
  | Seq r1 r2 =>
      if nullable r1
      then Alt (Seq (deriv c r1) r2) (deriv c r2)
      else Seq (deriv c r1) r2
  | Alt r1 r2 => Alt (deriv c r1) (deriv c r2)
  | Star r1 => Seq (deriv c r1) (Star r1)
  end.

(** The whole of [s] is a word of [r]. *)
Fixpoint fullmatch (r : regex) (s : string) : bool :=
  match s with
  | EmptyString => nullable r
  | String c s' => fullmatch (deriv c r) s'
  end.

Definition newline : ascii := ascii_of_nat 10.

Definition chop_newline (s : string) : option string :=
  match Str.rev s with
  | String c t => if Ascii.eqb c newline then Some (Str.rev t) else None
  | EmptyString => None
  end.

(** [bool(re.compile("^" r "$").match(s))].  Without the MULTILINE flag
    [^] is the start of the string, and [$] matches at the end of the
    string and also just before a line feed that ends the string. *)
Definition match_anchored (r : regex) (s : string) : bool :=
  fullmatch r s ||
  match chop_newline s with
  | Some s' => fullmatch r s'
  | None => false
  end.

End Re.

(** ** Python floats *)

Inductive pyfloat : Type :=
| Finite (q : Qc)
| Infinity (negative : bool)
| NaN.

Definition Z2Qc (z : Z) : Qc := Q2Qc (inject_Z z).

(** [10 ** e] as a rational, for an exponent of either sign. *)
Definition pow10 (e : Z) : Qc :=
  match e with
  | Zneg p => (1 / Z2Qc (10 ^ Zpos p))%Qc
  | _ => Z2Qc (10 ^ e)
  end.

Module Float.

Fixpoint span (p : ascii -> bool) (s : string) : string * string :=
  match s with
  | EmptyString => (EmptyString, EmptyString)
  | String c s' =>
      if p c
      then let (a, b) := span p s' in (String c a, b)
      else (EmptyString, s)
  end.

Definition digit_value (c : ascii) : Z := Z.of_nat (Str.code c - 48).

Fixpoint decimal_from (acc : Z) (ds : string) : Z :=
  match ds with
  | EmptyString => acc
  | String c ds' => decimal_from (10 * acc + digit_value c)%Z ds'
  end.

(** The value of a string of decimal digits. *)
Definition decimal (ds : string) : Z := decimal_from 0 ds.

Definition is_underscore (c : ascii) : bool := Ascii.eqb c "_"%char.

(** An underscore of a numeric literal stands between two digits. *)
Fixpoint underscores_ok (prev_digit : bool) (s : string) : bool :=
  match s with
  | EmptyString => true
  | String c s' =>
      if is_underscore c
      then prev_digit &&
           match s' with
           | String d _ => Str.is_digit d
           | EmptyString => false
           end && underscores_ok false s'
      else underscores_ok (Str.is_digit c) s'
  end.

Definition split_sign (s : string) : bool * string :=
  match s with
  | String c s' =>
      if Ascii.eqb c "-"%char then (true, s')
      else if Ascii.eqb c "+"%char then (false, s')
      else (false, s)
  | EmptyString => (false, s)
  end.

Definition is_e (c : ascii) : bool := Ascii.eqb c "e"%char || Ascii.eqb c "E"%char.

(** [digits [. digits] [e [sign] digits]] or [. digits [e ...]], the whole
    string. *)
Definition parse_decimal (s : string) : option Qc :=
  let (ip, r1) := span Str.is_digit s in
  let (fp, r2) :=
    match r1 with
    | String c r => if Ascii.eqb c "."%char then span Str.is_digit r else (EmptyString, r1)
    | EmptyString => (EmptyString, r1)
    end in
  if Str.is_empty ip && Str.is_empty fp then None
  else
    let mant := (Z2Qc (decimal (ip ++ fp)) * pow10 (- Z.of_nat (String.length fp)))%Qc in
    match r2 with
    | EmptyString => Some mant
    | String e r3 =>
        if is_e e then
          let (neg, r4) := split_sign r3 in
          let (ed, r5) := span Str.is_digit r4 in
          if Str.is_empty ed || negb (Str.is_empty r5) then None
          else Some (mant * pow10 (if neg then - decimal ed else decimal ed))%Qc
        else None
    end.

(** [float(s)] for a string [s]: surrounding white space is ignored, then
    comes an optional sign and a decimal literal, [inf], [infinity] or
    [nan] in any letter case; anything else raises [ValueError]. *)
Definition py_float (s : string) : py_result pyfloat :=
  let t := Str.strip_by Str.is_c_space s in
  if negb (underscores_ok false t) then Raises "ValueError"
  else
    let u := Str.replace "_" "" t in
    let (neg, body) := split_sign u in
    let word := Str.lower body in
    if String.eqb word "inf" || String.eqb word "infinity" then Returns (Infinity neg)
    else if String.eqb word "nan" then Returns NaN
    else
      match parse_decimal body with
      | Some q => Returns (Finite (if neg then - q else q)%Qc)
      | None => Raises "ValueError"
      end.

End Float.

(** ** config.py *)

Module Config.

Definition TON_RATE_CACHE_DURATION : Z := 120.
Definition FLOOR_PRICE_CACHE_DURATION : Z := 300.

Definition EMPTY_QUERY_CACHE_TIME : Z := 5.
Definition INVALID_QUERY_CACHE_TIME : Z := 300.
Definition ERROR_CACHE_TIME : Z := 5.
Definition UNAVAILABLE_USERNAME_CACHE_TIME : Z := 300.
Definition NUMERIC_QUERY_CACHE_TIME : Z := 30.
Definition USERNAME_RESULT_CACHE_TIME : Z := 300.

Definition FRAGMENT_THUMBNAIL_URL : string :=
  "https://storage.getblock.io/web/web/images/marketplace/Fragment/photo_2024-07-23_22-06-50.jpg".

Definition FRAGMENT_MINT_ADDRESS : string :=
  "0:408da3b28b6c065a593e10391269baaa9c5f8caebc0c69d9f0aabbab2a99256b".

Definition lower_class (c : ascii) : bool := Str.is_lower c.
Definition word_class (c : ascii) : bool :=
  Str.is_lower c || Str.is_digit c || Ascii.eqb c "_"%char.
Definition alnum_class (c : ascii) : bool := Str.is_lower c || Str.is_digit c.

(** [USERNAME_PATTERN = r"^[a-z][a-z0-9_]{2,}[a-z0-9]$"], the part between
    the anchors. *)
Definition USERNAME_PATTERN : Re.regex :=
  Re.Seq (Re.Cls lower_class)
    (Re.Seq (Re.AtLeast 2 (Re.Cls word_class)) (Re.Cls alnum_class)).

End Config.

(** ** services/price_converter.py *)

Module PriceConverter.

Definition numeric_class (c : ascii) : bool :=
  Str.is_digit c || Ascii.eqb c ","%char || Ascii.eqb c "."%char.

(** [NUMERIC_PATTERN = re.compile(r"^[\d,\.]+$")], the part between the
    anchors. *)
Definition NUMERIC_PATTERN : Re.regex := Re.Plus (Re.Cls numeric_class).

Definition is_numeric_query (query : string) : bool :=
  Re.match_anchored NUMERIC_PATTERN query.

(** [process_number_input]: [float] raises nothing but [ValueError] on a
    string, and the handler turns it into [0.0]. *)
Definition process_number_input (query : string) : py_result pyfloat :=
  let processed := Str.replace "," "." query in
  match Float.py_float processed with
  | Returns v => Returns v
  | Raises e =>
      if String.eqb e "ValueError" then Returns (Finite (Z2Qc 0)) else Raises e
  end.

End PriceConverter.

(** ** bot.py *)

Module Bot.

Definition is_valid_query (query : string) : bool :=
  Re.match_anchored Config.USERNAME_PATTERN query.

(** The branch [handle_inline_query] takes, with the query it passes on. *)
Inductive query_class : Type :=
| Empty
| Numeric (processed_query : string)
| Identifier (processed_query : string)
| Invalid.

Definition handle_inline_query (query : string) : query_class :=
  if Str.is_empty (Str.strip query) then Empty
  else
    let processed_query := Str.replace " " "" query in
    if PriceConverter.is_numeric_query processed_query then Numeric processed_query
    else
      let processed_query := Str.replace "@" "" (Str.lower processed_query) in
      if is_valid_query processed_query then Identifier processed_query
      else Invalid.

(** The cache time passed to [inline_query.answer] on the branches that
    answer at once. *)
Definition cache_time_of (c : query_class) : option Z :=
  match c with
  | Empty => Some Config.EMPTY_QUERY_CACHE_TIME
  | Numeric _ => Some Config.NUMERIC_QUERY_CACHE_TIME
  | Invalid => Some Config.INVALID_QUERY_CACHE_TIME
  | Identifier _ => None
  end.

End Bot.

(** ** Arithmetic on floats *)

Module FloatOps.

(** [a + b] *)
Definition add (a b : pyfloat) : pyfloat :=
  match a, b with
  | NaN, _ | _, NaN => NaN
  | Infinity n, Infinity m => if Bool.eqb n m then Infinity n else NaN
  | Infinity n, Finite _ | Finite _, Infinity n => Infinity n
  | Finite x, Finite y => Finite (x + y)%Qc
  end.

(** [a / 2] *)
Definition half (a : pyfloat) : pyfloat :=
  match a with
  | Finite x => Finite (x / Z2Qc 2)%Qc
  | _ => a
  end.

(** The integer nearest to [q], a tie going to the even neighbour. *)
Definition round_half_even (q : Q) : Z :=
  let f := Qfloor q in
  match Qcompare (q - inject_Z f) (1 # 2) with
  | Lt => f
  | Gt => (f + 1)%Z
  | Eq => if Z.even f then f else (f + 1)%Z
  end.

(** [round(a, ndigits)] for [ndigits >= 0]: the nearest multiple of
    [10 ** -ndigits], ties to even; infinities and NaN round to
    themselves. *)
Definition round (a : pyfloat) (ndigits : nat) : pyfloat :=
  match a with
  | Finite x =>
      let scale := (10 ^ Z.of_nat ndigits)%Z in
      Finite (Z2Qc (round_half_even (x * inject_Z scale)) / Z2Qc scale)%Qc
  | _ => a
  end.

(** [x > y] on time stamps and durations *)
Definition gtb (x y : Qc) : bool :=
  match (x ?= y)%Qc with
  | Gt => true
  | _ => false
  end.

(** [int(x)]: truncation towards zero *)
Definition truncate (x : Qc) : Z := Z.quot (Qnum x) (Zpos (Qden x)).

End FloatOps.

(** ** services/rates.py *)

Module Rates.

(** [rates_cache], a dictionary with four fixed keys.  [last_update] is a
    reading of [time.time()], in seconds. *)
Record cache : Type := mkCache {
  ton_usd : option pyfloat;
  last_update : Qc;
  source1 : option pyfloat;
  source2 : option pyfloat
}.

Definition rates_cache : cache :=
  {| ton_usd := None; last_update := Z2Qc 0; source1 := None; source2 := None |}.

(** [update_rates].  [coingecko_price] and [binance_price] are what
    [fetch_coingecko_price] and [fetch_binance_price] return in this round
    ([None] on any failure), [now] is [time.time()] at the end. *)
Definition update_rates (coingecko_price binance_price : option pyfloat)
    (now : Qc) (c : cache) : cache :=
  let c := {| ton_usd := ton_usd c; last_update := last_update c;
              source1 := coingecko_price; source2 := source2 c |} in
  let c := {| ton_usd := ton_usd c; last_update := last_update c;
              source1 := source1 c; source2 := binance_price |} in
  let c :=
    match coingecko_price, binance_price with
    | Some cg, Some bn =>
        {| ton_usd := Some (FloatOps.half (FloatOps.add cg bn));
           last_update := last_update c; source1 := source1 c; source2 := source2 c |}
    | Some cg, None =>
        {| ton_usd := Some cg;
           last_update := last_update c; source1 := source1 c; source2 := source2 c |}
    | None, Some bn =>
        {| ton_usd := Some bn;
           last_update := last_update c; source1 := source1 c; source2 := source2 c |}
    | None, None => c
    end in
  let c :=
    match ton_usd c with
    | Some v =>
        {| ton_usd := Some (FloatOps.round v 4);
           last_update := last_update c; source1 := source1 c; source2 := source2 c |}
    | None => c
    end in
  {| ton_usd := ton_usd c; last_update := now;
     source1 := source1 c; source2 := source2 c |}.

(** The second component of what [get_ton_price] returns. *)
Record price_info : Type := mkInfo {
  info_source1 : option pyfloat;
  info_source2 : option pyfloat;
  info_last_update : Qc
}.

(** [get_ton_price] at time [current_time]; the two prices and [now] are
    those of the refresh, should one be made. *)
Definition get_ton_price (current_time : Qc)
    (coingecko_price binance_price : option pyfloat) (now : Qc) (c : cache)
    : (option pyfloat * price_info) * cache :=
  let c :=
    match ton_usd c with
    | None => update_rates coingecko_price binance_price now c
    | Some _ =>
        if FloatOps.gtb (current_time - last_update c)%Qc (Z2Qc Config.TON_RATE_CACHE_DURATION)
        then update_rates coingecko_price binance_price now c
        else c
    end in
  ((ton_usd c,
    {| info_source1 := source1 c; info_source2 := source2 c;
       info_last_update := last_update c |}), c).

(** What happens to the cache over time: ticks of [start_rate_update_loop]
    and calls of [get_ton_price]. *)
Inductive event : Type :=
| Tick (coingecko_price binance_price : option pyfloat) (now : Qc)
| Get (current_time : Qc) (coingecko_price binance_price : option pyfloat) (now : Qc).

Definition step (c : cache) (e : event) : cache :=
  match e with
  | Tick cg bn now => update_rates cg bn now c
  | Get t cg bn now => snd (get_ton_price t cg bn now c)
  end.

Definition run (es : list event) (c : cache) : cache := fold_left step es c.

(** A round in which at least one source answered. *)
Definition round_succeeded (coingecko_price binance_price : option pyfloat) : bool :=
  match coingecko_price, binance_price with
  | None, None => false
  | _, _ => true
  end.

(** The event refreshed the cache from at least one source, given the
    cache it met. *)
Definition refreshed (c : cache) (e : event) : bool :=
  match e with
  | Tick cg bn _ => round_succeeded cg bn
  | Get t cg bn _ =>
      match ton_usd c with
      | None => round_succeeded cg bn
      | Some _ =>
          FloatOps.gtb (t - last_update c)%Qc (Z2Qc Config.TON_RATE_CACHE_DURATION)
          && round_succeeded cg bn
      end
  end.

Fixpoint any_refreshed (es : list event) (c : cache) : bool :=
  match es with
  | [] => false
  | e :: es' => refreshed c e || any_refreshed es' (step c e)
  end.

End Rates.

(** ** services/getgems.py *)

Module GetGems.

(** The dictionary [fetch_floor_price] returns on success. *)
Record floor_data : Type := mkFloor {
  fd_price : pyfloat;
  fd_number : option string;
  fd_item_address : option string
}.

(** [floor_price_cache] *)
Record cache : Type := mkCache {
  price : option pyfloat;
  number : option string;
  item_address : option string;
  last_update : Qc
}.

Definition floor_price_cache : cache :=
  {| price := None; number := None; item_address := None; last_update := Z2Qc 0 |}.

(** [update_floor_price]; [fetched] is what [fetch_floor_price] returns,
    [None] on any failure, and [now] is [time.time()]. *)
Definition update_floor_price (fetched : option floor_data) (now : Qc) (c : cache) : cache :=
  match fetched with
  | Some d =>
      {| price := Some (fd_price d); number := fd_number d;
         item_address := fd_item_address d; last_update := now |}
  | None => c
  end.

(** [get_floor_price] at time [current_time]: the cache and its age. *)
Definition get_floor_price (current_time : Qc) (fetched : option floor_data)
    (now : Qc) (c : cache) : cache * Z :=
  let cache_age := FloatOps.truncate (current_time - last_update c)%Qc in
  match price c with
  | None => (update_floor_price fetched now c, 0%Z)
  | Some _ =>
      if (cache_age >? Config.FLOOR_PRICE_CACHE_DURATION)%Z
      then (update_floor_price fetched now c, 0%Z)
      else (c, cache_age)
  end.

Inductive event : Type :=
| Tick (fetched : option floor_data) (now : Qc)
| Get (current_time : Qc) (fetched : option floor_data) (now : Qc).

Definition step (c : cache) (e : event) : cache :=
  match e with
  | Tick f now => update_floor_price f now c
  | Get t f now => fst (get_floor_price t f now c)
  end.

Definition run (es : list event) (c : cache) : cache := fold_left step es c.

Definition fetch_succeeded (fetched : option floor_data) : bool :=
  match fetched with
  | Some _ => true
  | None => false
  end.

Definition refreshed (c : cache) (e : event) : bool :=
  match e with
  | Tick f _ => fetch_succeeded f
  | Get t f _ =>
      match price c with
      | None => fetch_succeeded f
      | Some _ =>
          (FloatOps.truncate (t - last_update c)%Qc >? Config.FLOOR_PRICE_CACHE_DURATION)%Z
          && fetch_succeeded f
      end
  end.

Fixpoint any_refreshed (es : list event) (c : cache) : bool :=
  match es with
  | [] => false
  | e :: es' => refreshed c e || any_refreshed es' (step c e)
  end.

End GetGems.

(** ** The parse tree of BeautifulSoup

    The parser is a library; the model starts from the tree it builds.
    [classes] is the list bs4 makes of the [class] attribute, [attrs] holds
    the other attributes.  A [Comment] stands for any string bs4 leaves out
    of [.text]. *)

Module Soup.

Inductive node : Type :=
| Text (s : string)
| Comment (s : string)
| Element (name : string) (classes : list string)
    (attrs : list (string * string)) (children : list node).

(** A node together with the siblings that follow it. *)
Record frame : Type := mkFrame {
  at_node : node;
  after : list node
}.

(** A [Tag] object: an element of the tree with the way up to the root,
    nearest ancestor first. *)
Record tag : Type := mkTag {
  here : frame;
  above : list frame
}.

(** The [BeautifulSoup] object of a document with the given top-level
    nodes. *)
Definition document (top : list node) : tag :=
  {| here := {| at_node := Element "[document]" [] [] top; after := [] |};
     above := [] |}.

Definition name_of (n : node) : string :=
  match n with
  | Element name _ _ _ => name
  | _ => ""
  end.

Definition classes_of (n : node) : list string :=
  match n with
  | Element _ classes _ _ => classes
  | _ => []
  end.

Definition attrs_of (n : node) : list (string * string) :=
  match n with
  | Element _ _ attrs _ => attrs
  | _ => []
  end.

Fixpoint lookup (key : string) (l : list (string * string)) : option string :=
  match l with
  | [] => None
  | (k, v) :: l' => if String.eqb k key then Some v else lookup key l'
  end.

(** [tag.has_attr(key)] and [tag[key]] under that guard *)
Definition get_attr (key : string) (t : tag) : option string :=
  lookup key (attrs_of (at_node (here t))).

Definition has_attr (key : string) (t : tag) : bool :=
  match get_attr key t with
  | Some _ => true
  | None => false
  end.

(** [.text]: the strings below a node, in document order. *)
Fixpoint node_text (n : node) : string :=
  match n with
  | Text s => s
  | Comment _ => ""
  | Element _ _ _ children =>
      (fix all (ns : list node) : string :=
         match ns with
         | [] => ""
         | m :: rest => node_text m ++ all rest
         end) children
  end.

Definition text (t : tag) : string := node_text (at_node (here t)).

(** The element [n] and the elements below it, in document order. *)
Fixpoint elements_from (n : node) (following : list node) (up : list frame) : list tag :=
  match n with
  | Element _ _ _ children =>
      let me := {| at_node := n; after := following |} in
      {| here := me; above := up |} ::
      (fix all (ns : list node) : list tag :=
         match ns with
         | [] => []
         | m :: rest => (elements_from m rest (me :: up) ++ all rest)%list
         end) children
  | _ => []
  end.

(** [tag.descendants], the elements among them *)
Definition descendants (t : tag) : list tag :=
  tl (elements_from (at_node (here t)) (after (here t)) (above t)).

Definition has_class (c : string) (n : node) : bool :=
  existsb (String.eqb c) (classes_of n).

Definition has_name (name : string) (n : node) : bool :=
  String.eqb (name_of n) name.

(** [tag.find_all(name)] and [tag.find(name)] *)
Definition find_all (name : string) (t : tag) : list tag :=
  filter (fun d => has_name name (at_node (here d))) (descendants t).

Definition find (name : string) (t : tag) : option tag :=
  hd_error (find_all name t).

(** [tag.find(name, class_=c)] for a class [c] without white space *)
Definition find_class (name c : string) (t : tag) : option tag :=
  hd_error
    (filter (fun d => has_name name (at_node (here d)) && has_class c (at_node (here d)))
       (descendants t)).

(** [tag.find_next_sibling(name, class_=c)] *)
Fixpoint next_sibling_in (name c : string) (following : list node) (up : list frame)
    : option tag :=
  match following with
  | [] => None
  | n :: rest =>
      match n with
      | Element _ _ _ _ =>
          if has_name name n && has_class c n
          then Some {| here := {| at_node := n; after := rest |}; above := up |}
          else next_sibling_in name c rest up
      | _ => next_sibling_in name c rest up
      end
  end.

Definition find_next_sibling (name c : string) (t : tag) : option tag :=
  next_sibling_in name c (after (here t)) (above t).

(** [tag.find_parent(name)] *)
Fixpoint parent_in (name : string) (up : list frame) : option tag :=
  match up with
  | [] => None
  | f :: rest =>
      if has_name name (at_node f)
      then Some {| here := f; above := rest |}
      else parent_in name rest
  end.

Definition find_parent (name : string) (t : tag) : option tag :=
  parent_in name (above t).

(** *** CSS selectors

    A compound selector is an optional element name with class names; a
    selector is a chain of compounds joined by the descendant combinator. *)

Record compound : Type := mkCompound {
  sel_name : option string;
  sel_classes : list string
}.

Definition selector : Type := list compound.

Definition el (name : string) : compound :=
  {| sel_name := Some name; sel_classes := [] |}.
Definition cls (classes : list string) : compound :=
  {| sel_name := None; sel_classes := classes |}.
Definition elc (name : string) (classes : list string) : compound :=
  {| sel_name := Some name; sel_classes := classes |}.

Definition matches_compound (c : compound) (n : node) : bool :=
  match n with
  | Element _ _ _ _ =>
      match sel_name c with
      | Some name => has_name name n
      | None => true
      end && forallb (fun k => has_class k n) (sel_classes c)
  | _ => false
  end.

(** The compounds [cs], innermost first, are matched by ancestors taken in
    order on the way up. *)
Fixpoint ancestors_match (up : list frame) (cs : list compound) : bool :=
  match cs with
  | [] => true
  | c :: cs' =>
      match up with
      | [] => false
      | f :: up' =>
          if matches_compound c (at_node f)
          then ancestors_match up' cs'
          else ancestors_match up' cs
      end
  end.

Definition matches (sel : selector) (t : tag) : bool :=
  match List.rev sel with
  | [] => false
  | c :: cs => matches_compound c (at_node (here t)) && ancestors_match (above t) cs
  end.

(** [tag.select(sel)] and [tag.select_one(sel)] *)
Definition select (sel : selector) (t : tag) : list tag :=
  filter (matches sel) (descendants t).

Definition select_one (sel : selector) (t : tag) : option tag :=
  hd_error (select sel t).

End Soup.

(** ** Python integers *)

Module Int.

(** [f"{n}"] *)
Definition to_string (n : Z) : string :=
  DecimalString.NilZero.string_of_int (Z.to_int n).

(** Commas between groups of three digits, counted from the right;
    [digits] is given in reverse. *)
Fixpoint group_rev (digits : string) (count : nat) : string :=
  match digits with
  | EmptyString => EmptyString
  | String c rest =>
      match count with
      | 3 => String ","%char (String c (group_rev rest 1))
      | _ => String c (group_rev rest (S count))
      end
  end.

(** [f"{n:,}"] *)
Definition to_string_grouped (n : Z) : string :=
  let digits := to_string (Z.abs n) in
  let grouped := Str.rev (group_rev (Str.rev digits) 0) in
  if (n <? 0)%Z then String "-"%char grouped else grouped.

(** [int(s)] for a string: surrounding white space is ignored, then comes
    an optional sign and decimal digits, single underscores allowed between
    digits.  The limit the interpreter puts on the number of digits is not
    modelled. *)
Definition py_int (s : string) : py_result Z :=
  let t := Str.strip_by Str.is_c_space s in
  let (neg, body) := Float.split_sign t in
  let digits := Str.replace "_" "" body in
  if Float.underscores_ok false body && negb (Str.is_empty digits)
     && Str.forallb Str.is_digit digits
  then Returns (if neg then - Float.decimal digits else Float.decimal digits)%Z
  else Raises "ValueError".

End Int.

(** ** JSON values as [json.loads] and [response.json()] build them *)

Module Json.

Inductive json : Type :=
| JNull
| JBool (b : bool)
| JNum (q : Qc)
| JStr (s : string)
| JArr (items : list json)
| JObj (fields : list (string * json)).

Fixpoint lookup (key : string) (l : list (string * json)) : option json :=
  match l with
  | [] => None
  | (k, v) :: l' => if String.eqb k key then Some v else lookup key l'
  end.

(** [j == s] for a string [s] *)
Definition eq_str (j : json) (s : string) : bool :=
  match j with
  | JStr t => String.eqb t s
  | _ => false
  end.

(** [key in j] *)
Definition py_in (key : string) (j : json) : py_result bool :=
  match j with
  | JObj fields =>
      Returns (match lookup key fields with Some _ => true | None => false end)
  | JArr items => Returns (existsb (fun i => eq_str i key) items)
  | JStr s => Returns (Str.contains key s)
  | _ => Raises "TypeError"
  end.

(** [j[key]] *)
Definition getitem (j : json) (key : string) : py_result json :=
  match j with
  | JObj fields =>
      match lookup key fields with
      | Some v => Returns v
      | None => Raises "KeyError"
      end
  | _ => Raises "TypeError"
  end.

(** [j.get(key)]; Python's [None] is [JNull]. *)
Definition get (j : json) (key : string) : py_result json :=
  match j with
  | JObj fields =>
      Returns (match lookup key fields with Some v => v | None => JNull end)
  | _ => Raises "AttributeError"
  end.

(** [bool(j)] *)
Definition truthy (j : json) : bool :=
  match j with
  | JNull => false
  | JBool b => b
  | JNum q => negb (Qeq_bool q 0)
  | JStr s => negb (Str.is_empty s)
  | JArr items => match items with [] => false | _ => true end
  | JObj fields => match fields with [] => false | _ => true end
  end.

End Json.

(** ** services/result_articles.py *)

Module ResultArticles.

(** The target of a button.  [Tonviewer b] is
    [f"https://tonviewer.com/{b}"] with the value [b] as it came out of the
    JSON document. *)
Inductive link : Type :=
| Url (s : string)
| Tonviewer (beneficiary : Json.json).

(** [InlineKeyboardButton(text=..., url=...)] *)
Record button : Type := mkButton {
  text : string;
  url : link
}.

(** [InlineQueryResultArticle]; [reply_markup] holds the rows of the
    inline keyboard. *)
Record article : Type := mkArticle {
  id : string;
  title : string;
  description : string;
  message_text : string;
  reply_markup : option (list (list button));
  thumbnail_url : string
}.

(** [inline_query.answer(results=..., cache_time=...)] *)
Record answer : Type := mkAnswer {
  results : list article;
  cache_time : Z
}.

Definition fragment_username_url (username : string) : link :=
  Url ("https://fragment.com/username/" ++ username).

(** [create_price_button(username, {"ton": ton, "usd": usd})]: both keys
    are present, so the defaults of [get] are not used. *)
Definition create_price_button (username : string) (ton usd : option string) : button :=
  {| text := "💎 " ++ Str.format_opt ton ++ " TON (≈ $" ++ Str.format_opt usd ++ ")";
     url := fragment_username_url username |}.

Definition create_sale_price_button (username price : string) : button :=
  {| text := "💰 " ++ price ++ " TON"; url := fragment_username_url username |}.

Definition create_wallet_button (name link : string) (has_bids : bool) : button :=
  let emoji := if negb has_bids then "👤" else "🥇" in
  {| text := emoji ++ " " ++ name; url := Url link |}.

Definition create_telegram_button (name : string) : option button :=
  if Str.contains "t.me" name
  then
    let username := Str.replace ".t.me" "" name in
    Some {| text := "📲 @" ++ username; url := Url ("https://t.me/" ++ username) |}
  else None.

(** [create_buy_now_button(username, {"ton": ton, ...})] *)
Definition create_buy_now_button (username ton : string) : button :=
  {| text := "💰 BIN: " ++ ton ++ " TON"; url := fragment_username_url username |}.

(** What [fetch_auction_config_from_tonapi] returns on success. *)
Record tonapi_data : Type := mkTonapi {
  address : Json.json;
  auction_config : Json.json
}.

Definition fragment_mint_address : string :=
  "0:408da3b28b6c065a593e10391269baaa9c5f8caebc0c69d9f0aabbab2a99256b".

Definition fragment_mint_button : button :=
  {| text := "🏛️ Fragment Mint"; url := Url "https://fragment.com" |}.

Definition user_auction_button (beneficiary : Json.json) : button :=
  {| text := "👤 User Auction"; url := Tonviewer beneficiary |}.

(** [create_enhanced_auction_source_button].  The dictionary it is given
    is the one built by the resolver, so it is not empty and has the key
    ["auction_config"]. *)
Definition create_enhanced_auction_source_button (d : tonapi_data)
    : py_result (option button) :=
  let auction_config := auction_config d in
  success <- Json.get auction_config "success" ;;
  has_decoded <- (if Json.truthy success then Json.py_in "decoded" auction_config
                  else Returns false) ;;
  if negb (Json.truthy success) || negb has_decoded then Returns None
  else
    decoded <- Json.getitem auction_config "decoded" ;;
    beneficiary <- Json.get decoded "beneficiar" ;;
    if negb (Json.truthy beneficiary) then Returns None
    else if Json.eq_str beneficiary fragment_mint_address
    then Returns (Some fragment_mint_button)
    else Returns (Some (user_auction_button beneficiary)).

Definition special_chars : list string :=
  ["_"; "*"; "["; "]"; "("; ")"; "~"; "`"; ">"; "#"; "+"; "-"; "="; "|";
   "{"; "}"; "."; "!"].

(** [escape_markdown] *)
Definition escape_markdown (text : string) : string :=
  fold_left (fun t char => Str.replace char ("\" ++ char) t) special_chars text.

Definition invalid_username_article : article :=
  {| id := "invalid";
     title := "Invalid Username Format";
     description := "Query must >4 characters and start with a letter";
     message_text := "Usernames must start with a letter, be at least 4 characters long, and can contain letters, numbers, and underscores.";
     reply_markup := None;
     thumbnail_url := Config.FRAGMENT_THUMBNAIL_URL |}.

Definition error_checking_username_article (processed_query : string) : article :=
  let escaped_query := escape_markdown processed_query in
  {| id := "error";
     title := "Error checking username";
     description := "Could not check '" ++ processed_query ++ "' on Fragment";
     message_text := "Error checking username `" ++ escaped_query
                     ++ "` on Fragment. Please try again later.";
     reply_markup := None;
     thumbnail_url := Config.FRAGMENT_THUMBNAIL_URL |}.

End ResultArticles.


(** ** services/handler.py *)

Module Handler.

Import ResultArticles Soup.

(** *** The outside world *)

(** A marketplace page: the body of the response and the tree
    [BeautifulSoup(html_text, "html.parser")] makes of it. *)
Record page : Type := mkPage {
  html_text : string;
  parsed : list node
}.

(** The response to [GET https://fragment.com/username/{username}];
    [NoPage] when the request, or reading its body, raises. *)
Inductive page_reply : Type :=
| NoPage
| PageReply (status : Z) (body : page).

(** The two requests sent to tonapi.io:
    [https://tonapi.io/v2/dns/{username}.t.me] and
    [https://tonapi.io/v2/blockchain/accounts/{address}/methods/get_telemint_auction_config]. *)
Inductive request : Type :=
| DnsLookup (username : string)
| AuctionConfig (address : Json.json).

(** A response of tonapi.io: [NoReply] when the request raises, otherwise
    the status and the value of [response.json()], [None] when that
    raises. *)
Inductive reply : Type :=
| NoReply
| Reply (status : Z) (body : option Json.json).

Record world : Type := mkWorld {
  fragment : string -> page_reply;
  tonapi : request -> reply
}.

(** *** Helpers shared by the extractors *)

Definition or_else {A : Type} (a b : option A) : option A :=
  match a with
  | Some _ => a
  | None => b
  end.

Fixpoint last_error {A : Type} (l : list A) : option A :=
  match l with
  | [] => None
  | [a] => Some a
  | _ :: l' => last_error l'
  end.

(** The first element of a loop on which the body returns. *)
Fixpoint first_some {A B : Type} (f : A -> option B) (l : list A) : option B :=
  match l with
  | [] => None
  | a :: l' =>
      match f a with
      | Some b => Some b
      | None => first_some f l'
      end
  end.

Definition amount_class (c : ascii) : bool :=
  Str.is_digit c || Ascii.eqb c ","%char || Ascii.eqb c "."%char.

(** [re.search(r"\$([0-9,.]+)", s)] and [group(1)] of the match: the
    longest run of amount characters after the first dollar sign that has
    one. *)
Fixpoint search_usd (s : string) : option string :=
  match s with
  | EmptyString => None
  | String c s' =>
      if Ascii.eqb c "$"%char
      then
        let (run, _) := Float.span amount_class s' in
        if Str.is_empty run then search_usd s' else Some run
      else search_usd s'
  end.

(** The lines
    [usd_amount = None; if usd_element: ... usd_amount = usd_match.group(1)]. *)
Definition usd_amount_of (usd_element : option tag) : option string :=
  match usd_element with
  | Some e => search_usd (Str.strip (text e))
  | None => None
  end.

Definition stripped_text (e : option tag) : option string :=
  option_map (fun t => Str.strip (text t)) e.

(** [f"{head[:5]}...{tail[-5:]}"] *)
Definition head_tail_name (head tail : string) : string :=
  Str.take 5 head ++ "..." ++ Str.take_last 5 tail.

(** *** get_fragment_page *)

Inductive fetched : Type :=
| FetchedNone
| FetchedFalse
| FetchedText (p : page).

Definition is_redirect (status : Z) : bool :=
  existsb (Z.eqb status) [301; 302; 303; 307; 308]%Z.

Definition get_fragment_page (r : page_reply) : py_result fetched :=
  match r with
  | NoPage => Raises "ClientError"
  | PageReply status body =>
      if is_redirect status then Returns FetchedNone
      else if (status =? 200)%Z then Returns (FetchedText body)
      else Returns FetchedFalse
  end.

(** *** Extractors *)

Definition get_username_status (soup : tag) : option string :=
  match select_one [cls ["tm-section-header-status"]] soup with
  | Some status_span => Some (Str.strip (text status_span))
  | None => None
  end.

Definition available_price_info (soup : tag) (username : string) : option button :=
  match or_else (select_one [cls ["tm-section-bid"]; cls ["table-cell-value"; "tm-value"]] soup)
                (select_one [cls ["table-cell"; "table-cell-oneline"]] soup) with
  | None => None
  | Some price_container =>
      let ton_value_element :=
        match select_one [cls ["icon-ton"]] price_container with
        | Some e => e
        | None => price_container
        end in
      let ton_amount := Some (Str.strip (text ton_value_element)) in
      let usd_element :=
        or_else (find_next_sibling "div" "table-cell-desc" price_container)
                (find_class "div" "table-cell-desc" price_container) in
      let usd_amount := usd_amount_of usd_element in
      if Str.truthy ton_amount || Str.truthy usd_amount
      then Some (create_price_button username ton_amount usd_amount)
      else None
  end.

Definition most_recent_wallet_info (soup : tag) (has_bids : bool) : option (list button) :=
  match select_one [cls ["tm-table-wrap"]; el "table"; el "tbody"] soup with
  | None => None
  | Some bid_table =>
  match select_one [el "tr"] bid_table with
  | None => None
  | Some first_bid_row =>
  match last_error (select [el "td"] first_bid_row) with
  | None => None (* IndexError *)
  | Some wallet_cell =>
  match select_one [elc "a" ["tm-wallet"]] wallet_cell with
  | None => None
  | Some wallet_link_element =>
  match get_attr "href" wallet_link_element with
  | None => None
  | Some wallet_link =>
      let bidder_name :=
        match select_one [elc "span" ["short"]] wallet_link_element with
        | Some short_name_element => Some (Str.strip (text short_name_element))
        | None =>
            match select_one [elc "span" ["head"]] wallet_link_element,
                  select_one [elc "span" ["tail"]] wallet_link_element with
            | Some head_element, Some tail_element =>
                Some (head_tail_name (Str.strip (text head_element))
                                     (Str.strip (text tail_element)))
            | _, _ => None (* AttributeError *)
            end
        end in
      match bidder_name with
      | None => None
      | Some bidder_name =>
          let wallet_button :=
            create_wallet_button
              (if Str.is_empty bidder_name then "Unknown Bidder" else bidder_name)
              wallet_link has_bids in
          let telegram :=
            if negb (Str.is_empty bidder_name)
               && negb (Str.startswith "EQ" bidder_name || Str.startswith "UQ" bidder_name)
            then match create_telegram_button bidder_name with
                 | Some telegram_button => [telegram_button]
                 | None => []
                 end
            else [] in
          Some (wallet_button :: telegram)
      end
  end end end end end.

Definition extract_minimum_bid_info (soup : tag) (username : string) : option button :=
  if negb (Str.contains "Highest Bid" (text soup))
  then
    first_some
      (fun table =>
         let headers := find_all "th" table in
         if existsb (fun header => Str.contains "Minimum Bid" (text header)) headers
         then
           match find "td" table with
           | Some first_cell =>
               let ton_value := select_one [cls ["table-cell-value"]] first_cell in
               let ton_amount := stripped_text ton_value in
               let usd_element := select_one [cls ["table-cell-desc"]] first_cell in
               let usd_amount := usd_amount_of usd_element in
               if Str.truthy ton_amount || Str.truthy usd_amount
               then Some (create_price_button username ton_amount usd_amount)
               else None
           | None => None
           end
         else None)
      (find_all "table" soup)
  else None.

(** The loop of [extract_highest_bid_info] stops at the first table whose
    first header cell names the highest bid. *)
Fixpoint highest_bid_in (tables : list tag) (username : string) : option button :=
  match tables with
  | [] => None
  | table :: rest =>
      match find "th" table with
      | Some header =>
          if Str.contains "Highest Bid" (text header)
          then
            match find "td" table with
            | Some first_cell =>
                let ton_value := find_class "div" "table-cell-value" first_cell in
                let ton_amount := stripped_text ton_value in
                let usd_element := find_class "div" "table-cell-desc" first_cell in
                let usd_amount := usd_amount_of usd_element in
                if Str.truthy ton_amount || Str.truthy usd_amount
                then Some (create_price_button username ton_amount usd_amount)
                else None
            | None => None
            end
          else highest_bid_in rest username
      | None => highest_bid_in rest username
      end
  end.

Definition extract_highest_bid_info (soup : tag) (username : string) : option button :=
  highest_bid_in (find_all "table" soup) username.

Definition extract_buy_now_info (soup : tag) (username : string) : option button :=
  match select_one [cls ["btn"; "btn-primary"; "js-buy-now-btn"]] soup with
  | None => None
  | Some buy_now_button =>
      match get_attr "data-bid-amount" buy_now_button with
      | None => None
      | Some bid_amount_str =>
          let bid_amount := Str.replace "," "" bid_amount_str in
          match Int.py_int bid_amount with
          | Raises _ => None
          | Returns amount_numeric =>
              let amount_formatted := Int.to_string_grouped amount_numeric in
              let displayed_amount :=
                match select_one [cls ["tm-amount"]] buy_now_button with
                | Some ton_amount_element => Str.strip (text ton_amount_element)
                | None => amount_formatted
                end in
              Some (create_buy_now_button username displayed_amount)
          end
      end
  end.

(** The two digits of the hours or of the minutes, ["00"] unless both are
    there with their [data-val]. *)
Definition digit_pair (first second : string) (time_element : tag) : string :=
  match select_one [cls ["digit"; first]] time_element,
        select_one [cls ["digit"; second]] time_element with
  | Some d0, Some d1 =>
      match get_attr "data-val" d0, get_attr "data-val" d1 with
      | Some v0, Some v1 => v0 ++ v1
      | _, _ => "00"
      end
  | _, _ => "00"
  end.

(** The last lines of [extract_ends_in_info]: the text of the count-down
    from the three strings read off the page. *)
Definition format_ends_in (days_text hours_text mins_text : string) : py_result string :=
  if Str.contains "0 days" days_text
  then
    hours <- Int.py_int hours_text ;;
    mins <- Int.py_int mins_text ;;
    Returns (Int.to_string hours ++ "h " ++ Int.to_string mins ++ "m")
  else
    days <- Int.py_int (Str.replace " day" "" (Str.replace " days" "" days_text)) ;;
    hours <- Int.py_int hours_text ;;
    mins <- Int.py_int mins_text ;;
    Returns (Int.to_string days ++ "d " ++ Int.to_string hours ++ "h "
             ++ Int.to_string mins ++ "m").

Definition extract_ends_in_info (soup : tag) : option string :=
  match find_class "div" "tm-section-countdown" soup with
  | None => None
  | Some countdown_section =>
      match find_class "time" "tm-countdown-timer" countdown_section with
      | None => None
      | Some time_element =>
          let days_text :=
            match select_one [cls ["digit"; "timer-d"]] time_element with
            | Some days_digit =>
                match get_attr "data-val" days_digit with
                | Some v => v
                | None => "0 days"
                end
            | None => "0 days"
            end in
          let hours_text := digit_pair "timer-h0" "timer-h1" time_element in
          let mins_text := digit_pair "timer-m0" "timer-m1" time_element in
          match format_ends_in days_text hours_text mins_text with
          | Returns formatted_time => Some formatted_time
          | Raises _ => None
          end
      end
  end.

(** The table of the first header cell that mentions the sale price and
    stands in a table. *)
Definition sale_table (soup : tag) : option tag :=
  first_some
    (fun th => if Str.contains "Sale Price" (text th) then find_parent "table" th else None)
    (find_all "th" soup).

Definition extract_sold_price_info (soup : tag) (username : string) : option button :=
  match sale_table soup with
  | None => None
  | Some sale_table =>
      match select_one [el "td"; elc "div" ["table-cell-value"]] sale_table with
      | None => None
      | Some price_value_div =>
          let price := Str.strip (text price_value_div) in
          if negb (Str.is_empty price)
          then Some (create_sale_price_button username price)
          else None
      end
  end.

Definition nonempty_list {A : Type} (l : list A) : option (list A) :=
  match l with
  | [] => None
  | _ => Some l
  end.

Definition extract_sold_owner_info (soup : tag) : option (list button) :=
  match sale_table soup with
  | None => None
  | Some sale_table =>
      match select_one [el "td"; elc "a" ["tm-wallet"]] sale_table with
      | None => None
      | Some wallet_link =>
          match get_attr "href" wallet_link with
          | None => None
          | Some link =>
              let name :=
                match select_one [elc "span" ["short"]] wallet_link with
                | Some short_name_element => Str.strip (text short_name_element)
                | None =>
                    match select_one [elc "span" ["head"]] wallet_link,
                          select_one [elc "span" ["tail"]] wallet_link with
                    | Some head_span, Some tail_span =>
                        head_tail_name (Str.strip (text head_span))
                                       (Str.strip (text tail_span))
                    | _, _ => "Unknown Owner"
                    end
                end in
              let wallet :=
                if negb (Str.is_empty link)
                then [create_wallet_button name link false]
                else [] in
              let telegram :=
                if negb (Str.is_empty name)
                then match create_telegram_button name with
                     | Some telegram_button => [telegram_button]
                     | None => []
                     end
                else [] in
              nonempty_list (wallet ++ telegram)%list
          end
      end
  end.

Definition extract_for_sale_owner_info (soup : tag) : option (list button) :=
  match select_one [cls ["tm-table-wrap"]; el "table"; el "tbody"] soup with
  | None => None
  | Some bid_table =>
  match find "tr" bid_table with
  | None => None
  | Some first_bid_row =>
      let cells := find_all "td" first_bid_row in
      if (List.length cells <? 3)%nat then None
      else
  match last_error cells with
  | None => None
  | Some wallet_cell =>
  match find_class "a" "tm-wallet" wallet_cell with
  | None => None
  | Some wallet_link =>
  match get_attr "href" wallet_link with
  | None => None
  | Some link =>
      let name :=
        match select_one [elc "span" ["short"]] wallet_link with
        | Some short_name_element => Some (Str.strip (text short_name_element))
        | None =>
            match find_class "span" "head" wallet_link,
                  find_class "span" "tail" wallet_link with
            | Some head_span, Some tail_span =>
                Some (head_tail_name (Str.strip (text head_span))
                                     (Str.strip (text tail_span)))
            | _, _ => None (* AttributeError *)
            end
        end in
      match name with
      | None => None
      | Some name =>
          let wallet_button := create_wallet_button name link false in
          let telegram :=
            if negb (Str.is_empty name)
            then match create_telegram_button name with
                 | Some telegram_button => [telegram_button]
                 | None => []
                 end
            else [] in
          Some (wallet_button :: telegram)
      end
  end end end end end.

Definition get_status_message (status username : string) : string :=
  let status_emoji :=
    if String.eqb status "Unavailable" then "❌"
    else if String.eqb status "Sold" then "🔴"
    else if String.eqb status "Taken" then "🟠"
    else "🟢" in
  status_emoji ++ " @" ++ username ++ " is *" ++ Str.lower status ++ "*".

(** *** fetch_auction_config_from_tonapi *)

(** [key1 in j and key2 in j[key1]] followed by [j[key1][key2]]:
    [Returns None] when the test fails, [Raises] when a step raises. *)
Definition nested_item (j : Json.json) (key1 key2 : string) : py_result (option Json.json) :=
  has1 <- Json.py_in key1 j ;;
  if has1 then
    inner <- Json.getitem j key1 ;;
    has2 <- Json.py_in key2 inner ;;
    if has2 then
      inner <- Json.getitem j key1 ;;
      v <- Json.getitem inner key2 ;;
      Returns (Some v)
    else Returns None
  else Returns None.


(** The resolver returns its result together with the requests it sent, in
    the order in which it sent them.  Every exception ends in
    [return None]. *)
Definition fetch_auction_config_from_tonapi (tonapi : request -> reply)
    (username html_content : string) : option tonapi_data * list request :=
  if negb (Str.contains "Ownership History" html_content)
  then
    let dns := DnsLookup username in
    match tonapi dns with
    | NoReply => (None, [dns])
    | Reply status body =>
        if negb (status =? 200)%Z then (None, [dns])
        else
          match body with
          | None => (None, [dns])
          | Some dns_data =>
              match nested_item dns_data "item" "address" with
              | Raises _ => (None, [dns])
              | Returns None => (None, [dns])
              | Returns (Some address) =>
                  let auction := AuctionConfig address in
                  match tonapi auction with
                  | NoReply => (None, [dns; auction])
                  | Reply auction_status auction_body =>
                      if negb (auction_status =? 200)%Z then (None, [dns; auction])
                      else
                        match auction_body with
                        | None => (None, [dns; auction])
                        | Some auction_data =>
                            match nested_item auction_data "decoded" "beneficiar" with
                            | Raises _ => (None, [dns; auction])
                            | Returns _ =>
                                (Some {| address := address;
                                         auction_config := auction_data |},
                                 [dns; auction])
                            end
                        end
                  end
              end
          end
    end
  else (None, []).

(** *** handle_query *)

Definition unavailable_answer (query : string) : answer :=
  let short_message := get_status_message "Unavailable" query in
  {| results :=
       [ {| id := "result";
            title := Str.replace "*" "" short_message;
            description := "Fragment information for @" ++ query;
            message_text := short_message;
            reply_markup := None;
            thumbnail_url := Config.FRAGMENT_THUMBNAIL_URL |} ];
     cache_time := Config.UNAVAILABLE_USERNAME_CACHE_TIME |}.

Definition error_answer (query : string) : answer :=
  {| results := [error_checking_username_article query];
     cache_time := Config.ERROR_CACHE_TIME |}.

Definition row {A : Type} (o : option A) : list (list A) :=
  match o with
  | Some a => [[a]]
  | None => []
  end.

Definition rows {A : Type} (o : option (list A)) : list (list A) :=
  match o with
  | Some l => [l]
  | None => []
  end.

(** The keyboard rows of an auction, the minimum bid found on the page and
    the requests sent to tonapi.io.  Only the button of the auction source
    can raise. *)
Definition on_auction_rows (w : world) (soup : tag) (html_text query : string)
    : py_result (list (list button)) * option button * list request :=
  let minimum_bid_info := extract_minimum_bid_info soup query in
  let highest_bid_info := extract_highest_bid_info soup query in
  let buy_now_info := extract_buy_now_info soup query in
  let wallet_info :=
    most_recent_wallet_info soup
      (negb (match minimum_bid_info with Some _ => true | None => false end)) in
  let keyboard_rows :=
    (row minimum_bid_info ++ row highest_bid_info ++ row buy_now_info
     ++ rows wallet_info)%list in
  let (tonapi_data, sent) := fetch_auction_config_from_tonapi (tonapi w) query html_text in
  match tonapi_data with
  | Some d =>
      (mint_button <- create_enhanced_auction_source_button d ;;
       Returns (keyboard_rows ++ row mint_button)%list,
       minimum_bid_info, sent)
  | None => (Returns keyboard_rows, minimum_bid_info, sent)
  end.

(** The answer given to the inline query and the requests sent to
    tonapi.io on the way. *)
Definition handle_query (w : world) (query : string) : answer * list request :=
  match get_fragment_page (fragment w query) with
  | Raises _ => (error_answer query, [])
  | Returns FetchedNone | Returns FetchedFalse => (unavailable_answer query, [])
  | Returns (FetchedText p) =>
      if Str.is_empty (html_text p) then (unavailable_answer query, [])
      else
        let soup := document (parsed p) in
        match get_username_status soup with
        | None => (error_answer query, [])
        | Some status =>
            if Str.is_empty status then (error_answer query, [])
            else
              let short_message := get_status_message status query in
              let long_message := Str.replace query (escape_markdown query) short_message in
              let '(keyboard_rows, minimum_bid_info, sent) :=
                if String.eqb status "Available"
                then (Returns (row (available_price_info soup query)), None, [])
                else if String.eqb status "On auction"
                then on_auction_rows w soup (html_text p) query
                else if String.eqb status "Sold"
                then (Returns (row (extract_sold_price_info soup query)
                               ++ rows (extract_sold_owner_info soup))%list, None, [])
                else if String.eqb status "For sale"
                then (Returns (rows (extract_for_sale_owner_info soup)
                               ++ row (extract_buy_now_info soup query))%list, None, [])
                else (Returns [], None, []) in
              match keyboard_rows with
              | Raises _ => (error_answer query, sent)
              | Returns keyboard_rows =>
                  let long_message :=
                    if String.eqb status "On auction"
                    then match minimum_bid_info with
                         | Some _ => long_message ++ " *without* bids"
                         | None => long_message ++ " *with* bids"
                         end
                    else long_message in
                  let long_message :=
                    if String.eqb status "On auction" || String.eqb status "For sale"
                    then match extract_ends_in_info soup with
                         | Some ends_in_info =>
                             if negb (Str.is_empty ends_in_info)
                             then long_message ++ String Re.newline ("⏱️ Ends in: *" ++ ends_in_info ++ "*")
                             else long_message
                         | None => long_message
                         end
                    else long_message in
                  ({| results :=
                        [ {| id := "result";
                             title := Str.replace "*" "" short_message;
                             description := "Fragment information for @" ++ query;
                             message_text := long_message;
                             reply_markup := nonempty_list keyboard_rows;
                             thumbnail_url := Config.FRAGMENT_THUMBNAIL_URL |} ];
                      cache_time := Config.USERNAME_RESULT_CACHE_TIME |}, sent)
              end
        end
  end.

End Handler.

(** * Specification-side definitions *)

(** ** The language of a regular expression *)

Module ReSpec.

Import Re.

Inductive in_lang : regex -> string -> Prop :=
| in_eps : in_lang Eps ""
| in_cls p c : p c = true -> in_lang (Cls p) (String c "")
| in_seq r1 r2 s1 s2 :
    in_lang r1 s1 -> in_lang r2 s2 -> in_lang (Seq r1 r2) (s1 ++ s2)
| in_alt_l r1 r2 s : in_lang r1 s -> in_lang (Alt r1 r2) s
| in_alt_r r1 r2 s : in_lang r2 s -> in_lang (Alt r1 r2) s
| in_star_nil r : in_lang (Star r) ""
| in_star_app r s1 s2 :
    in_lang r s1 -> in_lang (Star r) s2 -> in_lang (Star r) (s1 ++ s2).

End ReSpec.

(** ** The identifier grammar in words *)

Module Grammar.

(** A first character that is a lower-case letter, interior characters
    that are lower-case letters, digits or underscores, a last character
    that is a lower-case letter or a digit, and at least [min_length]
    characters in all. *)
Definition identifier_shape (min_length : nat) (s : string) : Prop :=
  exists first interior last,
    s = String first (interior ++ String last "")
    /\ Config.lower_class first = true
    /\ Str.forallb Config.word_class interior = true
    /\ Config.alnum_class last = true
    /\ min_length <= String.length s.


(** The strings the pattern accepts: the shape with at least 4
    characters, alone or followed by one line feed. *)
Definition accepted_identifier (s : string) : Prop :=
  identifier_shape 4 s
  \/ exists s', s = s' ++ String Re.newline "" /\ identifier_shape 4 s'.

(** The query [handle_inline_query] validates on the identifier path. *)
Definition normalize (query : string) : string :=
  Str.replace "@" "" (Str.lower (Str.replace " " "" query)).

End Grammar.

(** ** The caches in words *)

Module CacheSpec.

(** A source that fails in a round keeps the value the cache held for it. *)
Definition source_detail_retained (c : Rates.cache)
    (coingecko_price binance_price : option pyfloat) (now : Qc) : Prop :=
  (coingecko_price = None ->
   Rates.source1 (Rates.update_rates coingecko_price binance_price now c) = Rates.source1 c)
  /\ (binance_price = None ->
      Rates.source2 (Rates.update_rates coingecko_price binance_price now c) = Rates.source2 c).

(** The composite is [None] or a value [round(_, 4)] leaves as it is. *)
Definition rounded (c : Rates.cache) : Prop :=
  match Rates.ton_usd c with
  | Some v => FloatOps.round v 4 = v
  | None => True
  end.

Definition five : pyfloat := Finite (Z2Qc 5).
Definition six : pyfloat := Finite (Z2Qc 6).
Definition seven : pyfloat := Finite (Z2Qc 7).

End CacheSpec.

(** ** Numeric queries in words *)

Module NumericSpec.



End NumericSpec.

(** ** The status table in words *)

Module StatusSpec.




(** The article [handle_query] answers with once the status is read. *)
Definition result_article (status query message : string)
    (keyboard_rows : list (list ResultArticles.button)) : ResultArticles.article :=
  {| ResultArticles.id := "result";
     ResultArticles.title := Str.replace "*" "" (Handler.get_status_message status query);
     ResultArticles.description := "Fragment information for @" ++ query;
     ResultArticles.message_text := message;
     ResultArticles.reply_markup := Handler.nonempty_list keyboard_rows;
     ResultArticles.thumbnail_url := Config.FRAGMENT_THUMBNAIL_URL |}.

Definition result_answer (status query message : string)
    (keyboard_rows : list (list ResultArticles.button)) : ResultArticles.answer :=
  {| ResultArticles.results := [result_article status query message keyboard_rows];
     ResultArticles.cache_time := Config.USERNAME_RESULT_CACHE_TIME |}.

(** The message before the suffixes of auctions and sales. *)
Definition base_message (status query : string) : string :=
  Str.replace query (ResultArticles.escape_markdown query)
    (Handler.get_status_message status query).

(** The line of the count-down, empty when none is found. *)
Definition ends_in_line (soup : Soup.tag) : string :=
  match Handler.extract_ends_in_info soup with
  | Some ends_in_info =>
      if negb (Str.is_empty ends_in_info)
      then String Re.newline ("⏱️ Ends in: *" ++ ends_in_info ++ "*")
      else ""
  | None => ""
  end.

(** The suffix of the message of an auction. *)
Definition bids_suffix (minimum_bid_info : option ResultArticles.button) : string :=
  match minimum_bid_info with
  | Some _ => " *without* bids"
  | None => " *with* bids"
  end.

End StatusSpec.

(** ** Sample pages

    The raw text of a page reaches the handler in two tests only: whether
    it is empty, and whether it holds the ownership-history marker.  The
    samples carry a text that agrees with their tree on both. *)

Module Samples.

Import Soup Handler.

Definition status_span (status : string) : node :=
  Element "span" ["tm-section-header-status"] [] [Text status].

Definition header (status : string) : node :=
  Element "div" ["tm-section-header"] []
    [ Element "h2" ["tm-section-header-text"] [] [Text "abcde.t.me"; status_span status] ].

(** A table with one header cell and one value cell holding an amount in
    TON and its value in dollars. *)
Definition price_table (heading ton usd : string) : node :=
  Element "table" ["table"; "tm-table"] []
    [ Element "thead" [] []
        [ Element "tr" [] [] [ Element "th" [] [] [Text heading] ] ];
      Element "tbody" [] []
        [ Element "tr" [] []
            [ Element "td" [] []
                [ Element "div" ["table-cell-value"; "tm-value"; "icon-before"; "icon-ton"] []
                    [Text ton];
                  Element "div" ["table-cell-desc"] [] [Text usd] ] ] ] ].

Definition digit (name value : string) : node :=
  Element "span" ["digit"; name] [("data-val", value)] [Text value].

(** The count-down widget; a digit is left out when its value is [None]. *)
Definition opt_digit (name : string) (value : option string) : list node :=
  match value with
  | Some v => [digit name v]
  | None => []
  end.

Definition countdown (d h0 h1 m0 m1 : option string) : node :=
  Element "div" ["tm-section-countdown"] []
    [ Element "time" ["tm-countdown-timer"] []
        (opt_digit "timer-d" d ++ opt_digit "timer-h0" h0 ++ opt_digit "timer-h1" h1
         ++ opt_digit "timer-m0" m0 ++ opt_digit "timer-m1" m1)%list ].

(** An auction without bids: status, a minimum bid of 10 TON, about $25,
    no bid history and no ownership history. *)
Definition auction_without_bids : page :=
  {| html_text :=
       "<div class=tm-section-header><h2 class=tm-section-header-text>abcde.t.me<span class=tm-section-header-status>On auction</span></h2></div><table class='table tm-table'><thead><tr><th>Minimum Bid</th></tr></thead><tbody><tr><td><div class='table-cell-value tm-value icon-before icon-ton'>10</div><div class=table-cell-desc>~ $25</div></td></tr></tbody></table>";
     parsed := [ header "On auction"; price_table "Minimum Bid" "10" "~ $25" ] |}.


(** A page without the status marker. *)
Definition page_without_status : page :=
  {| html_text := "<table><tr><th>Minimum Bid</th></tr><tr><td>10 ~ $25</td></tr></table>";
     parsed := [ price_table "Minimum Bid" "10" "~ $25" ] |}.

(** A page whose only content is a count-down. *)
Definition countdown_page (d h0 h1 m0 m1 : option string) : tag :=
  document [ countdown d h0 h1 m0 m1 ].

(** tonapi.io answers every request with 404. *)
Definition tonapi_not_found (r : request) : reply := Reply 404 None.

Definition sample_address : Json.json := Json.JStr "0:1f2e3d".

(** tonapi.io resolves every name to [sample_address] and reports an
    auction whose beneficiary is [beneficiary]. *)
Definition tonapi_auction (beneficiary : string) (r : request) : reply :=
  match r with
  | DnsLookup _ =>
      Reply 200 (Some (Json.JObj [("name", Json.JStr "abcde.t.me");
                                  ("item", Json.JObj [("address", sample_address)])]))
  | AuctionConfig _ =>
      Reply 200 (Some (Json.JObj [("success", Json.JBool true);
                                  ("decoded", Json.JObj [("beneficiar", Json.JStr beneficiary)])]))
  end.

(** A world in which the marketplace serves [p] for every name. *)
Definition serving (p : page) (api : request -> reply) : world :=
  {| fragment := fun _ => PageReply 200 p; tonapi := api |}.

End Samples.


From Stdlib Require Import DecimalPos.

(** ** Further specification-side definitions *)

Module CacheShape.

(** The floor-price cache right after a successful fetch of [d] at [now]. *)
Definition from_fetch (d : GetGems.floor_data) (now : Qc) : GetGems.cache :=
  {| GetGems.price := Some (GetGems.fd_price d);
     GetGems.number := GetGems.fd_number d;
     GetGems.item_address := GetGems.fd_item_address d;
     GetGems.last_update := now |}.

(** The event carries the fetched listing [d] and the time [now]. *)
Definition carries (d : GetGems.floor_data) (now : Qc) (e : GetGems.event) : Prop :=
  match e with
  | GetGems.Tick f n => f = Some d /\ n = now
  | GetGems.Get _ f n => f = Some d /\ n = now
  end.

End CacheShape.

(** ** Character-wise views of string operations *)

Module CharMap.

(** Each character replaced by a string. *)
Fixpoint concat_map (f : ascii -> string) (s : string) : string :=
  match s with
  | EmptyString => EmptyString
  | String c s' => f c ++ concat_map f s'
  end.

(** What [replace] does to one character when [old] is the character
    [a]. *)
Definition swap (a : ascii) (new : string) (c : ascii) : string :=
  if Ascii.eqb c a then new else String c "".


(** A character the normalisation of a query leaves alone: no space, no
    [@], no capital letter. *)
Definition steady (c : ascii) : bool :=
  negb (Ascii.eqb c " "%char) && negb (Ascii.eqb c "@"%char) && negb (Str.is_upper c).

(** The characters [escape_markdown] escapes. *)
Definition is_special (c : ascii) : bool :=
  existsb (String.eqb (String c "")) ResultArticles.special_chars.

(** A special character gets a backslash in front, any other stays. *)
Definition escape_char (c : ascii) : string :=
  if is_special c then String "\"%char (String c "") else String c "".

(** The step of [escape_markdown] for one special character. *)
Definition escape_step (t char : string) : string :=
  Str.replace char ("\" ++ char) t.

(** The number of characters of [s] that satisfy [p]. *)
Fixpoint count (p : ascii -> bool) (s : string) : nat :=
  match s with
  | EmptyString => 0
  | String c s' => (if p c then 1 else 0) + count p s'
  end.

End CharMap.

(** ** More arithmetic on floats *)

Module FloatArith.

Definition is_zero (a : pyfloat) : bool :=
  match a with
  | Finite q => Qeq_bool q 0
  | _ => false
  end.

Definition negative (a : pyfloat) : bool :=
  match a with
  | Finite q => match (q ?= 0)%Qc with Lt => true | _ => false end
  | Infinity n => n
  | NaN => false
  end.

(** [a * b] *)
Definition mul (a b : pyfloat) : pyfloat :=
  match a, b with
  | NaN, _ | _, NaN => NaN
  | Finite x, Finite y => Finite (x * y)%Qc
  | _, _ =>
      if is_zero a || is_zero b then NaN
      else Infinity (xorb (negative a) (negative b))
  end.

(** [a / b]: a zero divisor raises, whatever the dividend. *)
Definition div (a b : pyfloat) : py_result pyfloat :=
  if is_zero b then Raises "ZeroDivisionError"
  else
    Returns match a, b with
            | NaN, _ | _, NaN => NaN
            | Finite x, Finite y => Finite (x / y)%Qc
            | Infinity _, Infinity _ => NaN
            | Infinity n, Finite _ => Infinity (xorb n (negative b))
            | Finite _, Infinity _ => Finite (Z2Qc 0)
            end.

(** [bool(a)] *)
Definition truthy (a : option pyfloat) : bool :=
  match a with
  | Some v => negb (is_zero v)
  | None => false
  end.

End FloatArith.

(** ** services/rates.py, continued *)

Module RatesMore.

Import Handler.

(** [float(j)] for a value of a JSON document. *)
Definition float_of_json (j : Json.json) : py_result pyfloat :=
  match j with
  | Json.JNum q => Returns (Finite q)
  | Json.JBool b => Returns (Finite (Z2Qc (if b then 1 else 0)))
  | Json.JStr s => Float.py_float s
  | _ => Raises "TypeError"
  end.

(** [fetch_binance_price], from the response to the request; every
    exception ends in [None].  A response without the key ["price"] is
    read as the number 0. *)
Definition fetch_binance_price (r : reply) : option pyfloat :=
  match r with
  | NoReply => None
  | Reply status body =>
      if (status =? 200)%Z
      then
        match body with
        | None => None
        | Some data =>
            match data with
            | Json.JObj fields =>
                match Json.lookup "price" fields with
                | Some v =>
                    match float_of_json v with
                    | Returns price => Some price
                    | Raises _ => None
                    end
                | None => Some (Finite (Z2Qc 0))
                end
            | _ => None (* AttributeError *)
            end
        end
      else None
  end.

(** [convert_usd_to_ton] *)
Definition convert_usd_to_ton (usd_amount : pyfloat) (c : Rates.cache)
    : py_result (option pyfloat) :=
  match Rates.ton_usd c with
  | None => Returns None
  | Some rate =>
      if FloatArith.is_zero rate then Returns None
      else v <- FloatArith.div usd_amount rate ;; Returns (Some v)
  end.

(** [convert_ton_to_usd] *)
Definition convert_ton_to_usd (ton_amount : pyfloat) (c : Rates.cache) : option pyfloat :=
  match Rates.ton_usd c with
  | None => None
  | Some rate => Some (FloatArith.mul ton_amount rate)
  end.

End RatesMore.

(** ** services/price_converter.py, continued

    The formatting of a float is the work of the interpreter and stays a
    parameter: [format_fixed true x d] is [f"{x:,.{d}f}"],
    [format_fixed false x d] is [f"{x:.{d}f}"], and [float_str x] is
    [f"{x}"]. *)

Module PriceArticles.

(** A key of the price keyboard: a link or a callback. *)
Inductive key_action : Type :=
| Callback (data : string)
| Link (url : string).

Record key : Type := mkKey {
  key_text : string;
  key_action_of : key_action
}.

Record article : Type := mkArticle {
  id : string;
  title : string;
  description : string;
  message_text : string;
  reply_markup : option (list (list key));
  thumbnail_url : string
}.

Definition TON_THUMBNAIL_URL : string :=
  "https://pbs.twimg.com/profile_images/1602985148219260928/VC-Mraev_400x400.jpg".
Definition DEFAULT_DECIMAL_PLACES : nat := 2.
Definition TON_DECIMAL_PLACES : nat := 4.

Definition is_char (a : ascii) (c : ascii) : bool := Ascii.eqb c a.

Section Formatting.

Variable format_fixed : bool -> pyfloat -> nat -> string.

(** [format_number] *)
Definition format_number (number : pyfloat) (decimal_places : nat) : string :=
  let formatted := format_fixed true number decimal_places in
  if Str.contains "." formatted
  then Str.rstrip_by (is_char "."%char) (Str.rstrip_by (is_char "0"%char) formatted)
  else formatted.

Definition create_price_error_article (query_id : string) : article :=
  {| id := "price_error_" ++ query_id;
     title := "⚠️ Price Data Unavailable";
     description := "Unable to fetch current TON price. Please try again later.";
     message_text :=
       "⚠️ *Price Data Unavailable*" ++ String Re.newline (String Re.newline
       "Unable to fetch current TON price. Please try again later.");
     reply_markup := None;
     thumbnail_url := TON_THUMBNAIL_URL |}.

(** [create_price_keyboard] *)
Definition create_price_keyboard (ton_price : pyfloat) (price_info : Rates.price_info)
    : list (list key) :=
  let source1_price := Rates.info_source1 price_info in
  let source2_price := Rates.info_source2 price_info in
  let source1_text :=
    match source1_price with
    | Some v => if FloatArith.truthy source1_price
                then "CoinGecko: $" ++ format_number v TON_DECIMAL_PLACES
                else "CoinGecko: N/A"
    | None => "CoinGecko: N/A"
    end in
  let source2_text :=
    match source2_price with
    | Some v => if FloatArith.truthy source2_price
                then "Binance: $" ++ format_number v TON_DECIMAL_PLACES
                else "Binance: N/A"
    | None => "Binance: N/A"
    end in
  [ [ {| key_text := "💎 1 TON = $" ++ format_number ton_price TON_DECIMAL_PLACES;
         key_action_of := Callback "rate_info" |} ];
    [ {| key_text := source1_text;
         key_action_of := Link "https://www.coingecko.com/en/coins/toncoin" |};
      {| key_text := source2_text;
         key_action_of := Link "https://www.binance.com/en/price/the-open-network" |} ] ].

(** [create_dual_conversion_article]; the two conversions read the cache
    [c]. *)
Definition create_dual_conversion_article (amount ton_price : pyfloat)
    (price_info : Rates.price_info) (query_id : string) (c : Rates.cache)
    : py_result article :=
  ton_amount <- RatesMore.convert_usd_to_ton amount c ;;
  let usd_amount := RatesMore.convert_ton_to_usd amount c in
  match ton_amount, usd_amount with
  | Some ton_amount, Some usd_amount =>
      let title := "💱 USD ⇆ TON: " ++ format_number amount DEFAULT_DECIMAL_PLACES in
      let description := "💎 1 TON = $" ++ format_number ton_price TON_DECIMAL_PLACES in
      let keyboard := create_price_keyboard ton_price price_info in
      let message_text :=
        "💵 $" ++ format_number amount DEFAULT_DECIMAL_PLACES ++ " = *"
        ++ format_number ton_amount TON_DECIMAL_PLACES ++ " TON*"
        ++ String Re.newline
             ("💎 " ++ format_number amount DEFAULT_DECIMAL_PLACES ++ " TON = *$"
              ++ format_number usd_amount DEFAULT_DECIMAL_PLACES ++ "* "
              ++ String Re.newline (String Re.newline "")) in
      Returns {| id := "price_conversion_" ++ query_id;
                 title := title;
                 description := description;
                 message_text := message_text;
                 reply_markup := Some keyboard;
                 thumbnail_url := TON_THUMBNAIL_URL |}
  | _, _ => Returns (create_price_error_article query_id)
  end.

(** [create_price_conversion_result] at time [current_time]; the two
    prices and [now] are those of the refresh [get_ton_price] makes,
    should it make one.  The result comes with the cache it leaves. *)
Definition create_price_conversion_result (query query_id : string)
    (current_time : Qc) (coingecko_price binance_price : option pyfloat) (now : Qc)
    (c : Rates.cache) : py_result (list article) * Rates.cache :=
  match PriceConverter.process_number_input query with
  | Raises e => (Raises e, c)
  | Returns processed_number =>
      let '((ton_price, price_info), c) :=
        Rates.get_ton_price current_time coingecko_price binance_price now c in
      match ton_price with
      | None => (Returns [create_price_error_article query_id], c)
      | Some ton_price =>
          let source1_price := Rates.info_source1 price_info in
          let source2_price := Rates.info_source2 price_info in
          let ton_price :=
            match source1_price, source2_price with
            | Some s1, Some s2 =>
                if FloatArith.truthy source1_price && FloatArith.truthy source2_price
                then FloatOps.half (FloatOps.add s1 s2)
                else ton_price
            | _, _ => ton_price
            end in
          (a <- create_dual_conversion_article processed_number ton_price price_info
                  query_id c ;;
           Returns [a], c)
      end
  end.

End Formatting.

End PriceArticles.

(** ** services/getgems.py, continued

    The texts are those of the source file, byte for byte. *)

Module FloorMessage.

Import ResultArticles.

Definition GETGEMS_COLLECTION_ADDRESS : string :=
  "EQAOQdwdw8kGftJCSFgOErM1mBjYPe4DBPq8-AhF6vr9si5N".

(** The dictionary [get_number_floor_price_message] returns. *)
Record message : Type := mkMessage {
  title : string;
  description : string;
  text_of : string;
  buttons : list (list button)
}.

(** [create_floor_price_button] *)
Definition create_floor_price_button (item_address : option string) : option button :=
  match item_address with
  | Some a =>
      if Str.is_empty a then None
      else Some {| text := "üîç getgems.io";
                   url := Url ("https://getgems.io/collection/"
                               ++ GETGEMS_COLLECTION_ADDRESS ++ "/" ++ a) |}
  | None => None
  end.

(** [create_marketapp_button] *)
Definition create_marketapp_button (item_address : option string) : option button :=
  match item_address with
  | Some a =>
      if Str.is_empty a then None
      else Some {| text := "üõí marketapp.ws";
                   url := Url ("https://marketapp.ws/" ++ a) |}
  | None => None
  end.

(** [format_number_for_telegram] *)
Definition format_number_for_telegram (number : string) : string :=
  Str.replace "-" "" (Str.replace ")" "" (Str.replace "(" "" (Str.replace " " "" number))).

(** [create_telegram_number_button] *)
Definition create_telegram_number_button (number : option string) : option button :=
  match number with
  | Some n =>
      if Str.is_empty n || String.eqb n "Unknown Number" then None
      else
        let formatted_number := format_number_for_telegram n in
        Some {| text := "üì≤ " ++ n;
                url := Url ("https://t.me/" ++ formatted_number) |}
  | None => None
  end.

Definition unavailable : message :=
  {| title := "Number Floor Price Unavailable";
     description := "Unable to fetch the current floor price for Fragment numbers";
     text_of :=
       "‚ö†Ô∏è *Fragment Numbers Floor Price Unavailable*"
       ++ String Re.newline (String Re.newline
       "Unable to fetch the current floor price for Fragment numbers. Please try again later.");
     buttons := [] |}.

Section Formatting.

Variable format_fixed : bool -> pyfloat -> nat -> string.
Variable float_str : pyfloat -> string.

(** [f"{x:.2f}"] for a value that may be [None]. *)
Definition format_2f (x : option pyfloat) : py_result string :=
  match x with
  | Some v => Returns (format_fixed false v 2)
  | None => Raises "TypeError"
  end.

(** [get_number_floor_price_message] at time [current_time]; [fetched]
    and [now] are those of the refresh [get_floor_price] makes, should it
    make one; [rates] is the cache of the rates.  The result comes with
    the floor-price cache it leaves.  Under [if item_address] the source
    puts [getgems_button] in the row without a test: there the address is
    not empty and [create_floor_price_button] does not return [None]. *)
Definition get_number_floor_price_message (current_time : Qc)
    (fetched : option GetGems.floor_data) (now : Qc)
    (floor : GetGems.cache) (rates : Rates.cache)
    : py_result message * GetGems.cache :=
  let (floor_data, cache_age) := GetGems.get_floor_price current_time fetched now floor in
  match GetGems.price floor_data with
  | None => (Returns unavailable, floor_data)
  | Some price_ton =>
      let number := GetGems.number floor_data in
      let item_address := GetGems.item_address floor_data in
      let price_usd := RatesMore.convert_ton_to_usd price_ton rates in
      (usd_text <- (if FloatArith.truthy price_usd
                    then s <- format_2f price_usd ;; Returns ("(‚âà $" ++ s ++ ")")
                    else Returns "") ;;
       let title := "Number Floor Price" in
       s <- format_2f price_usd ;;
       let description :=
         "üíé " ++ float_str price_ton ++ " TON (‚âà $" ++ s ++ ")" in
       let message :=
         "üì± *Number Floor Price*"
         ++ String Re.newline
              ("üíé *" ++ float_str price_ton ++ " TON* " ++ usd_text
               ++ String Re.newline "") in
       let telegram_row :=
         if Str.truthy number
         then match create_telegram_number_button number with
              | Some telegram_button => [[telegram_button]]
              | None => []
              end
         else [] in
       let address_row :=
         if Str.truthy item_address
         then match create_floor_price_button item_address with
              | Some getgems_button =>
                  match create_marketapp_button item_address with
                  | Some marketapp_button => [[getgems_button; marketapp_button]]
                  | None => [[getgems_button]]
                  end
              | None => []
              end
         else [] in
       Returns {| title := title;
                  description := description;
                  text_of := message;
                  buttons := (telegram_row ++ address_row)%list |},
       floor_data)
  end.

End Formatting.

End FloorMessage.

(** ** The answer to an empty query (services/result_articles.py, bot.py) *)

Module EmptyQuery.

(** [empty_query_article] *)
Definition empty_query_article : ResultArticles.article :=
  {| ResultArticles.id := "empty_query";
     ResultArticles.title := "Enter a username";
     ResultArticles.description := "Type a username to retrieve Fragment information";
     ResultArticles.message_text :=
       "Please enter a valid Telegram username to retrieve Fragment information.";
     ResultArticles.reply_markup := None;
     ResultArticles.thumbnail_url := Config.FRAGMENT_THUMBNAIL_URL |}.

(** The three results of the answer and its cache time. *)
Record answer : Type := mkAnswer {
  prompt : ResultArticles.article;
  ton_rate : PriceArticles.article;
  number_floor : ResultArticles.article;
  cache_time : Z
}.

(** What the sources of the rates and the floor-price API would return
    when asked, and the times at which the refreshes end. *)
Record upstream : Type := mkUpstream {
  coingecko_price : option pyfloat;
  binance_price : option pyfloat;
  rates_now : Qc;
  floor_fetched : option GetGems.floor_data;
  floor_now : Qc
}.

(** The two caches of the process. *)
Record caches : Type := mkCaches {
  rates : Rates.cache;
  floor : GetGems.cache
}.

Section Formatting.

Variable format_fixed : bool -> pyfloat -> nat -> string.
Variable float_str : pyfloat -> string.

(** [get_ton_rate_article] *)
Definition get_ton_rate_article (current_time : Qc) (u : upstream) (c : Rates.cache)
    : PriceArticles.article * Rates.cache :=
  let '((ton_price, source_info), c) :=
    Rates.get_ton_price current_time (coingecko_price u) (binance_price u) (rates_now u) c in
  (match ton_price with
   | None =>
       {| PriceArticles.id := "ton_rate";
          PriceArticles.title := "⚠️ TON Rate Unavailable";
          PriceArticles.description := "Unable to fetch current TON price";
          PriceArticles.message_text :=
            "⚠️ *Price Data Unavailable*" ++ String Re.newline (String Re.newline
            "Unable to fetch current TON price. Please try again later.");
          PriceArticles.reply_markup := None;
          PriceArticles.thumbnail_url := PriceArticles.TON_THUMBNAIL_URL |}
   | Some ton_price =>
       {| PriceArticles.id := "ton_rate";
          PriceArticles.title :=
            "TON Rate: $"
            ++ PriceArticles.format_number format_fixed ton_price
                 PriceArticles.TON_DECIMAL_PLACES;
          PriceArticles.description := "Enter a number to convert between USD and TON";
          PriceArticles.message_text := "💎 *Current TON Rate*";
          PriceArticles.reply_markup :=
            Some (PriceArticles.create_price_keyboard format_fixed ton_price source_info);
          PriceArticles.thumbnail_url := PriceArticles.TON_THUMBNAIL_URL |}
   end, c).

(** [get_number_floor_price_article] *)
Definition get_number_floor_price_article (current_time : Qc) (u : upstream)
    (floor : GetGems.cache) (rates : Rates.cache)
    : py_result ResultArticles.article * GetGems.cache :=
  let (floor_price_info, floor) :=
    FloorMessage.get_number_floor_price_message format_fixed float_str current_time
      (floor_fetched u) (floor_now u) floor rates in
  (info <- floor_price_info ;;
   Returns {| ResultArticles.id := "number_floor_price";
              ResultArticles.title := FloorMessage.title info;
              ResultArticles.description := FloorMessage.description info;
              ResultArticles.message_text := FloorMessage.text_of info;
              ResultArticles.reply_markup := Handler.nonempty_list (FloorMessage.buttons info);
              ResultArticles.thumbnail_url :=
                "https://storage.getblock.io/web/web/images/marketplace/Fragment/photo_2024-07-23_22-06-50.jpg" |},
   floor).

(** The first branch of [handle_inline_query], taken when the query is
    blank: the rate article is made first, then the floor-price article,
    which reads the rate the first step left in the cache.  An exception
    of the second step is not handled. *)
Definition answer_empty_query (rate_time floor_time : Qc) (u : upstream) (c : caches)
    : py_result answer * caches :=
  let (ton_rate_article, rates) := get_ton_rate_article rate_time u (rates c) in
  let (number_floor_article, floor) :=
    get_number_floor_price_article floor_time u (floor c) rates in
  (a <- number_floor_article ;;
   Returns {| prompt := empty_query_article;
              ton_rate := ton_rate_article;
              number_floor := a;
              cache_time := Config.EMPTY_QUERY_CACHE_TIME |},
   {| rates := rates; floor := floor |}).

End Formatting.

End EmptyQuery.

(** ** Formatted numbers in words *)

Module FormatSpec.

(** Any character but the decimal point. *)
Definition not_dot (c : ascii) : bool := negb (PriceArticles.is_char "."%char c).

End FormatSpec.

(** ** Telephone numbers in words *)

Module NumberSpec.

(** The characters [format_number_for_telegram] takes out. *)
Definition dropped (c : ascii) : bool :=
  Ascii.eqb c " "%char || Ascii.eqb c "("%char || Ascii.eqb c ")"%char
  || Ascii.eqb c "-"%char.

Definition keep (c : ascii) : string :=
  if dropped c then "" else String c "".

End NumberSpec.

(** ** The articles of an answer *)

Module AnswerSpec.

Definition not_star (c : ascii) : bool := negb (Ascii.eqb c "*"%char).

(** The article of a username whose page was read: a plain title, the
    username in the description, the thumbnail of Fragment. *)
Definition result_shape (query : string) (r : ResultArticles.article) : Prop :=
  ResultArticles.id r = "result"
  /\ Str.forallb not_star (ResultArticles.title r) = true
  /\ ResultArticles.description r = "Fragment information for @" ++ query
  /\ ResultArticles.thumbnail_url r = Config.FRAGMENT_THUMBNAIL_URL.

End AnswerSpec.

(** ** The composite rate and its sources *)

Module RateSpec.

(** The composite of the cache is the one its two source prices give. *)
Definition coherent (c : Rates.cache) : Prop :=
  match Rates.source1 c, Rates.source2 c with
  | Some a, Some b =>
      Rates.ton_usd c = Some (FloatOps.round (FloatOps.half (FloatOps.add a b)) 4)
  | Some a, None => Rates.ton_usd c = Some (FloatOps.round a 4)
  | None, Some b => Rates.ton_usd c = Some (FloatOps.round b 4)
  | None, None => True
  end.

End RateSpec.

(** ** Letter case *)

Module CaseSpec.


End CaseSpec.
(** * Theorems *)

(** ** Strings *)

Module StrFacts.

Lemma append_nil_r (s : string) : s ++ "" = s.
Proof. induction s as [|c s IH]; simpl; [reflexivity | now rewrite IH]. Qed.

Lemma append_assoc (a b c : string) : (a ++ b) ++ c = a ++ (b ++ c).
Proof. induction a as [|x a IH]; simpl; [reflexivity | now rewrite IH]. Qed.

Lemma length_append (a b : string) :
  String.length (a ++ b) = String.length a + String.length b.
Proof. induction a as [|x a IH]; simpl; [reflexivity | now rewrite IH]. Qed.

Lemma append_eq_nil (a b : string) : a ++ b = "" -> a = "" /\ b = "".
Proof. destruct a; simpl; intros H; [auto | discriminate]. Qed.

Lemma forallb_append (p : ascii -> bool) (a b : string) :
  Str.forallb p (a ++ b) = Str.forallb p a && Str.forallb p b.
Proof.
  induction a as [|x a IH]; simpl; [reflexivity|].
  now rewrite IH, andb_assoc.
Qed.

Lemma rev_onto_append (s acc : string) : Str.rev_onto s acc = Str.rev s ++ acc.
Proof.
  unfold Str.rev. revert acc.
  induction s as [|c s IH]; intros acc; simpl; [reflexivity|].
  rewrite (IH (String c acc)), (IH (String c "")), append_assoc. reflexivity.
Qed.

Lemma rev_cons (c : ascii) (s : string) : Str.rev (String c s) = Str.rev s ++ String c "".
Proof. unfold Str.rev at 1. simpl. apply rev_onto_append. Qed.

Lemma rev_append (a b : string) : Str.rev (a ++ b) = Str.rev b ++ Str.rev a.
Proof.
  induction a as [|x a IH]; simpl.
  - now rewrite append_nil_r.
  - now rewrite !rev_cons, IH, append_assoc.
Qed.

Lemma rev_involutive (s : string) : Str.rev (Str.rev s) = s.
Proof.
  induction s as [|c s IH]; [reflexivity|].
  now rewrite rev_cons, rev_append, IH.
Qed.

End StrFacts.

(** ** Rationals in lowest terms *)

Module QcFacts.

Lemma finite_eq (a b : Qc) : (a == b)%Q -> Finite a = Finite b.
Proof. intros H. f_equal. now apply Qc_is_canon. Qed.

End QcFacts.

(** ** Derivatives decide the language *)

Module ReFacts.

Import Re ReSpec.

Lemma nullable_sound (r : regex) : nullable r = true -> in_lang r "".
Proof.
  induction r; simpl; intros H; try discriminate.
  - constructor.
  - apply andb_true_iff in H as [H1 H2].
    change "" with ("" ++ ""). constructor; auto.
  - apply orb_true_iff in H as [H | H]; [apply in_alt_l | apply in_alt_r]; auto.
  - constructor.
Qed.

Lemma nullable_complete (r : regex) (s : string) :
  in_lang r s -> s = "" -> nullable r = true.
Proof.
  induction 1; intros E; simpl; try reflexivity; try discriminate.
  - apply StrFacts.append_eq_nil in E as [E1 E2]. now rewrite IHin_lang1, IHin_lang2.
  - rewrite IHin_lang by assumption. reflexivity.
  - rewrite IHin_lang by assumption. apply orb_true_r.
Qed.

Lemma deriv_sound (c : ascii) (r : regex) :
  forall s, in_lang (deriv c r) s -> in_lang r (String c s).
Proof.
  induction r; simpl; intros s H.
  - inversion H.
  - inversion H.
  - destruct (p c) eqn:E; inversion H; subst. now constructor.
  - destruct (nullable r1) eqn:N.
    + inversion H; subst.
      * match goal with K : in_lang (Seq _ _) _ |- _ => inversion K; subst end.
        change (String c (s1 ++ s2)) with (String c s1 ++ s2). constructor; auto.
      * change (String c s) with ("" ++ String c s).
        constructor; [now apply nullable_sound | auto].
    + inversion H; subst.
      change (String c (s1 ++ s2)) with (String c s1 ++ s2). constructor; auto.
  - inversion H; subst; [apply in_alt_l | apply in_alt_r]; auto.
  - inversion H; subst.
    change (String c (s1 ++ s2)) with (String c s1 ++ s2). constructor; auto.
Qed.

Lemma deriv_complete (r : regex) (s0 : string) :
  in_lang r s0 -> forall c s, s0 = String c s -> in_lang (deriv c r) s.
Proof.
  induction 1; intros c0 t E; simpl.
  - discriminate.
  - injection E as -> <-. rewrite H. constructor.
  - destruct s1 as [|x s1]; simpl in E.
    + subst s2. rewrite (nullable_complete _ _ H eq_refl).
      apply in_alt_r. now apply IHin_lang2.
    + injection E as -> <-.
      destruct (nullable r1).
      * apply in_alt_l. constructor; auto.
      * constructor; auto.
  - apply in_alt_l. auto.
  - apply in_alt_r. auto.
  - discriminate.
  - destruct s1 as [|x s1]; simpl in E.
    + now apply IHin_lang2.
    + injection E as -> <-. constructor; auto.
Qed.

Lemma fullmatch_iff (r : regex) (s : string) : fullmatch r s = true <-> in_lang r s.
Proof.
  revert r. induction s as [|c s IH]; intros r; simpl.
  - split; [apply nullable_sound | intros H; now apply (nullable_complete r "")].
  - rewrite IH. split; [apply deriv_sound | intros H; now apply (deriv_complete r (String c s))].
Qed.

Lemma in_cls_iff (p : ascii -> bool) (s : string) :
  in_lang (Cls p) s <-> exists c, s = String c "" /\ p c = true.
Proof.
  split.
  - inversion 1; subst. eauto.
  - intros (c & -> & H). now constructor.
Qed.

Lemma in_seq_iff (r1 r2 : regex) (s : string) :
  in_lang (Seq r1 r2) s <->
  exists s1 s2, s = s1 ++ s2 /\ in_lang r1 s1 /\ in_lang r2 s2.
Proof.
  split.
  - inversion 1; subst. eauto.
  - intros (s1 & s2 & -> & H1 & H2). now constructor.
Qed.

Lemma in_star_cls (p : ascii -> bool) (s : string) :
  in_lang (Star (Cls p)) s <-> Str.forallb p s = true.
Proof.
  split.
  - intros H. remember (Star (Cls p)) as r eqn:R.
    induction H; try discriminate; injection R as ->.
    + reflexivity.
    + inversion H; subst. simpl.
      match goal with K : p _ = true |- _ => rewrite K end. simpl. auto.
  - induction s as [|c s IH]; simpl; intros H.
    + constructor.
    + apply andb_true_iff in H as [H1 H2].
      change (String c s) with (String c "" ++ s).
      constructor; [now constructor | auto].
Qed.

End ReFacts.

(** ** The identifier grammar (bot.py) *)

Module BotFacts.

Import Re ReSpec.

Lemma chop_newline_iff (s s' : string) :
  chop_newline s = Some s' <-> s = s' ++ String newline "".
Proof.
  unfold chop_newline. split.
  - destruct (Str.rev s) as [|c t] eqn:E; [discriminate|].
    destruct (Ascii.eqb c newline) eqn:C; [|discriminate].
    intros H. injection H as <-. apply Ascii.eqb_eq in C. subst c.
    rewrite <- (StrFacts.rev_involutive s), E. apply StrFacts.rev_cons.
  - intros ->. rewrite StrFacts.rev_append.
    change (Str.rev (String newline "")) with (String newline "").
    cbn [append]. rewrite Ascii.eqb_refl, StrFacts.rev_involutive. reflexivity.
Qed.

Lemma match_anchored_iff (r : regex) (s : string) :
  match_anchored r s = true <->
  in_lang r s \/ exists s', s = s' ++ String newline "" /\ in_lang r s'.
Proof.
  unfold match_anchored. rewrite orb_true_iff, ReFacts.fullmatch_iff.
  split; (intros [H | H]; [now left | right]).
  - destruct (chop_newline s) as [s'|] eqn:E; [|discriminate].
    exists s'. split; [now apply chop_newline_iff | now apply ReFacts.fullmatch_iff].
  - destruct H as (s' & E & H). apply chop_newline_iff in E. rewrite E.
    now apply ReFacts.fullmatch_iff.
Qed.

Lemma username_pattern_shape (s : string) :
  in_lang Config.USERNAME_PATTERN s <-> Grammar.identifier_shape 4 s.
Proof.
  unfold Config.USERNAME_PATTERN, Grammar.identifier_shape. simpl AtLeast. split.
  - intros H.
    apply ReFacts.in_seq_iff in H as (s1 & s2 & -> & H1 & H2).
    apply ReFacts.in_cls_iff in H1 as (c0 & -> & L0).
    apply ReFacts.in_seq_iff in H2 as (t1 & t2 & -> & H1 & H2).
    apply ReFacts.in_cls_iff in H2 as (cl & -> & Ll).
    apply ReFacts.in_seq_iff in H1 as (u1 & u2 & -> & H1 & H2).
    apply ReFacts.in_cls_iff in H1 as (c1 & -> & L1).
    apply ReFacts.in_seq_iff in H2 as (v1 & v2 & -> & H1 & H2).
    apply ReFacts.in_cls_iff in H1 as (c2 & -> & L2).
    apply ReFacts.in_star_cls in H2.
    exists c0, (String c1 (String c2 v2)), cl. simpl.
    rewrite L1, L2, H2, StrFacts.length_append. simpl.
    repeat split; auto; lia.
  - intros (c0 & interior & cl & -> & L0 & Hi & Ll & Hlen).
    simpl in Hlen. rewrite StrFacts.length_append in Hlen. simpl in Hlen.
    destruct interior as [|c1 [|c2 v]]; simpl in Hlen; try lia.
    simpl in Hi.
    apply andb_true_iff in Hi as [L1 Hi]. apply andb_true_iff in Hi as [L2 Hv].
    change (String c0 (String c1 (String c2 v) ++ String cl ""))
      with (String c0 "" ++ ((String c1 "" ++ (String c2 "" ++ v)) ++ String cl "")).
    repeat (constructor; auto).
    now apply ReFacts.in_star_cls.
Qed.

Lemma is_valid_query_iff (s : string) :
  Bot.is_valid_query s = true <-> Grammar.accepted_identifier s.
Proof.
  unfold Bot.is_valid_query, Grammar.accepted_identifier.
  rewrite match_anchored_iff, username_pattern_shape.
  split; (intros [H | (s' & E & H)]; [now left | right; exists s'; split; auto]);
    now apply username_pattern_shape.
Qed.




(** The line feed that [$] lets through. *)
Example trailing_newline_is_accepted :
  Bot.is_valid_query ("abcd" ++ String Re.newline "") = true.
Proof. reflexivity. Qed.

End BotFacts.

(** ** Numeric queries (services/price_converter.py) *)

Module PriceConverterFacts.

Import PriceConverter.



Lemma py_float_raises (s e : string) :
  Float.py_float s = Raises e -> e = "ValueError".
Proof.
  unfold Float.py_float.
  destruct (negb _); [now intros [= <-]|].
  destruct (Float.split_sign _) as [neg body].
  destruct (_ || _); [discriminate|].
  destruct (String.eqb _ _); [discriminate|].
  destruct (Float.parse_decimal body); [discriminate | now intros [= <-]].
Qed.

Lemma process_number_input_total (query : string) :
  process_number_input query =
  Returns match Float.py_float (Str.replace "," "." query) with
          | Returns v => v
          | Raises _ => Finite (Z2Qc 0)
          end.
Proof.
  unfold process_number_input.
  destruct (Float.py_float _) as [v | e] eqn:E; [reflexivity|].
  apply py_float_raises in E. subst e. reflexivity.
Qed.

(** *** Non-negative rationals *)







(** *** What [float] makes of digits and periods *)

Import NumericSpec.



Lemma forallb_rev (p : ascii -> bool) (s : string) :
  Str.forallb p (Str.rev s) = Str.forallb p s.
Proof.
  induction s as [|c s IH]; [reflexivity|].
  rewrite StrFacts.rev_cons, StrFacts.forallb_append, IH. simpl.
  rewrite andb_true_r. apply andb_comm.
Qed.







Lemma numeric_pattern_shape (s : string) :
  ReSpec.in_lang NUMERIC_PATTERN s <->
  s <> "" /\ Str.forallb numeric_class s = true.
Proof.
  unfold NUMERIC_PATTERN, Re.Plus. rewrite ReFacts.in_seq_iff. split.
  - intros (s1 & s2 & -> & H1 & H2).
    apply ReFacts.in_cls_iff in H1 as (c & -> & Hc).
    apply ReFacts.in_star_cls in H2. simpl. rewrite Hc, H2. split; [discriminate | reflexivity].
  - intros [N H]. destruct s as [|c s]; [congruence|]. simpl in H.
    apply andb_true_iff in H as [Hc Hs].
    exists (String c ""), s. repeat split.
    + now apply ReFacts.in_cls_iff; eauto.
    + now apply ReFacts.in_star_cls.
Qed.



(** The accepted queries: digits, commas and periods, at least one, and
    possibly a final line feed. *)
Lemma is_numeric_query_shape (query : string) :
  is_numeric_query query = true ->
  exists s tail,
    query = s ++ tail /\ s <> ""
    /\ Str.forallb numeric_class s = true
    /\ (tail = "" \/ tail = String Re.newline "").
Proof.
  unfold is_numeric_query. intros H.
  apply BotFacts.match_anchored_iff in H as [H | (s & -> & H)];
    apply numeric_pattern_shape in H as [N F].
  - exists query, "". rewrite StrFacts.append_nil_r. auto.
  - exists s, (String Re.newline ""). auto.
Qed.




(** The numeric branch of the dispatcher passes the query on with its
    spaces removed. *)
Lemma numeric_query_is_routed (query : string) :
  Str.is_empty (Str.strip query) = false ->
  is_numeric_query (Str.replace " " "" query) = true ->
  Bot.handle_inline_query query = Bot.Numeric (Str.replace " " "" query).
Proof.
  intros B N. unfold Bot.handle_inline_query. now rewrite B, N.
Qed.

End PriceConverterFacts.

(** ** The caches (services/rates.py, services/getgems.py) *)

Module FloatFacts.

Import FloatOps.

#[local] Instance round_half_even_comp : Proper (Qeq ==> eq) round_half_even.
Proof.
  intros q q' H. unfold round_half_even.
  assert (F : Qfloor q = Qfloor q') by (now apply Qfloor_comp).
  rewrite F.
  assert (C : Qcompare (q - inject_Z (Qfloor q')) (1 # 2)
              = Qcompare (q' - inject_Z (Qfloor q')) (1 # 2)).
  { apply Qcompare_comp; [now rewrite H | reflexivity]. }
  cbv zeta. now rewrite C.
Qed.

Lemma round_half_even_Z (n : Z) : round_half_even (inject_Z n) = n.
Proof.
  unfold round_half_even. rewrite Qfloor_Z.
  assert (E : (inject_Z n - inject_Z n == 0)%Q) by ring.
  rewrite E. reflexivity.
Qed.

Lemma scaled_back (n scale : Z) :
  (0 < scale)%Z ->
  ((Z2Qc n / Z2Qc scale)%Qc * inject_Z scale == inject_Z n)%Q.
Proof.
  intros H.
  unfold Qcdiv, Qcmult, Qcinv, Z2Qc, Q2Qc. cbn [this].
  rewrite !Qred_correct.
  field. intros E.
  assert (K : (inject_Z scale == inject_Z 0)%Q) by exact E.
  apply (proj1 (inject_Z_injective scale 0)) in K. lia.
Qed.

Lemma round_idempotent (v : pyfloat) (ndigits : nat) :
  round (round v ndigits) ndigits = round v ndigits.
Proof.
  destruct v as [x | neg |]; try reflexivity.
  unfold round. set (scale := (10 ^ Z.of_nat ndigits)%Z).
  set (n := round_half_even (x * inject_Z scale)).
  f_equal. f_equal. f_equal.
  transitivity (round_half_even (inject_Z n)).
  - apply round_half_even_comp, scaled_back.
    apply Z.pow_pos_nonneg; lia.
  - apply round_half_even_Z.
Qed.

End FloatFacts.

Module RatesFacts.

Import Rates.

Lemma update_rates_ton_usd (cg bn : option pyfloat) (now : Qc) (c : cache) :
  ton_usd (update_rates cg bn now c) =
  match cg, bn with
  | Some a, Some b => Some (FloatOps.round (FloatOps.half (FloatOps.add a b)) 4)
  | Some a, None => Some (FloatOps.round a 4)
  | None, Some b => Some (FloatOps.round b 4)
  | None, None => option_map (fun v => FloatOps.round v 4) (ton_usd c)
  end.
Proof.
  unfold update_rates. destruct cg, bn; simpl; try reflexivity.
  destruct (ton_usd c); reflexivity.
Qed.

Lemma update_rates_rounded (cg bn : option pyfloat) (now : Qc) (c : cache) :
  CacheSpec.rounded (update_rates cg bn now c).
Proof.
  unfold CacheSpec.rounded. rewrite update_rates_ton_usd.
  destruct cg, bn; simpl; try apply FloatFacts.round_idempotent.
  destruct (ton_usd c); simpl; [apply FloatFacts.round_idempotent | exact I].
Qed.

Lemma get_step_cases (t : Qc) (cg bn : option pyfloat) (now : Qc) (c : cache) :
  step c (Get t cg bn now) = update_rates cg bn now c
  \/ (step c (Get t cg bn now) = c /\ ton_usd c <> None).
Proof.
  unfold step, get_ton_price. destruct (ton_usd c) eqn:E.
  - destruct (FloatOps.gtb _ _); cbn [snd]; [now left | right; split; congruence].
  - now left.
Qed.

Lemma step_rounded (c : cache) (e : event) :
  CacheSpec.rounded c -> CacheSpec.rounded (step c e).
Proof.
  intros H. destruct e as [cg bn now | t cg bn now].
  - apply update_rates_rounded.
  - destruct (get_step_cases t cg bn now c) as [-> | [-> _]];
      [apply update_rates_rounded | exact H].
Qed.

Lemma run_rounded (es : list event) :
  forall c, CacheSpec.rounded c -> CacheSpec.rounded (run es c).
Proof.
  unfold run. induction es as [|e es IH]; intros c H; simpl; [exact H|].
  apply IH. now apply step_rounded.
Qed.

Lemma update_rates_keeps_value (cg bn : option pyfloat) (now : Qc) (c : cache) :
  ton_usd c <> None -> ton_usd (update_rates cg bn now c) <> None.
Proof.
  intros H. rewrite update_rates_ton_usd.
  destruct cg, bn; try discriminate.
  destruct (ton_usd c); [discriminate | contradiction].
Qed.

Lemma step_keeps_value (c : cache) (e : event) :
  ton_usd c <> None -> ton_usd (step c e) <> None.
Proof.
  intros H. destruct e as [cg bn now | t cg bn now].
  - now apply update_rates_keeps_value.
  - destruct (get_step_cases t cg bn now c) as [-> | [-> _]];
      [now apply update_rates_keeps_value | exact H].
Qed.

Lemma run_keeps_value (es : list event) :
  forall c, ton_usd c <> None -> ton_usd (run es c) <> None.
Proof.
  unfold run. induction es as [|e es IH]; intros c H; simpl; [exact H|].
  apply IH. now apply step_keeps_value.
Qed.

Lemma step_sets_value (c : cache) (e : event) :
  ton_usd c = None -> (ton_usd (step c e) = None <-> refreshed c e = false).
Proof.
  intros H. destruct e as [cg bn now | t cg bn now].
  - cbn [step refreshed]. rewrite update_rates_ton_usd, H.
    destruct cg, bn; simpl; split; congruence.
  - destruct (get_step_cases t cg bn now c) as [-> | [_ K]]; [|contradiction].
    cbn [refreshed]. rewrite update_rates_ton_usd, H.
    destruct cg, bn; simpl; split; congruence.
Qed.

Lemma unset_iff_never_refreshed (es : list event) :
  forall c, ton_usd c = None ->
  (ton_usd (run es c) = None <-> any_refreshed es c = false).
Proof.
  induction es as [|e es IH]; intros c H; simpl.
  - split; auto.
  - rewrite orb_false_iff. destruct (ton_usd (step c e)) eqn:E.
    + assert (S : ton_usd (step c e) <> None) by congruence.
      split.
      * intros K. exfalso. exact (run_keeps_value es _ S K).
      * intros [K _]. apply (step_sets_value c e H) in K. congruence.
    + change (run (e :: es) c) with (run es (step c e)).
      rewrite (IH _ E). apply (step_sets_value c e H) in E. tauto.
Qed.

Lemma get_returns_cached (t : Qc) (cg bn : option pyfloat) (now : Qc) (c : cache) :
  ton_usd c <> None -> fst (fst (get_ton_price t cg bn now c)) <> None.
Proof.
  intros H. change (ton_usd (step c (Get t cg bn now)) <> None).
  now apply step_keeps_value.
Qed.

End RatesFacts.

Module GetGemsFacts.

Import GetGems.

Lemma floor_step_keeps_value (c : cache) (e : event) :
  price c <> None -> price (step c e) <> None.
Proof.
  intros H. destruct e as [f now | t f now]; simpl.
  - destruct f; simpl; [discriminate | exact H].
  - unfold get_floor_price. destruct (price c) eqn:E; [|contradiction].
    destruct (_ >? _)%Z; simpl; [|congruence].
    destruct f; simpl; [discriminate | congruence].
Qed.

Lemma floor_run_keeps_value (es : list event) :
  forall c, price c <> None -> price (run es c) <> None.
Proof.
  unfold run. induction es as [|e es IH]; intros c H; simpl; [exact H|].
  apply IH. now apply floor_step_keeps_value.
Qed.

Lemma floor_step_sets_value (c : cache) (e : event) :
  price c = None -> (price (step c e) = None <-> refreshed c e = false).
Proof.
  intros H. destruct e as [f now | t f now]; simpl.
  - destruct f; simpl; split; congruence.
  - unfold get_floor_price. rewrite H. destruct f; simpl; split; congruence.
Qed.

Lemma floor_unset_iff_never_refreshed (es : list event) :
  forall c, price c = None ->
  (price (run es c) = None <-> any_refreshed es c = false).
Proof.
  induction es as [|e es IH]; intros c H; simpl.
  - split; auto.
  - rewrite orb_false_iff. destruct (price (step c e)) eqn:E.
    + assert (S : price (step c e) <> None) by congruence.
      split.
      * intros K. exfalso. exact (floor_run_keeps_value es _ S K).
      * intros [K _]. apply (floor_step_sets_value c e H) in K. congruence.
    + change (run (e :: es) c) with (run es (step c e)).
      rewrite (IH _ E). apply (floor_step_sets_value c e H) in E. tauto.
Qed.

End GetGemsFacts.

Module CacheClaims.

(** C5: in both caches the value is unset exactly as long as no refresh
    has succeeded; once it is set, no sequence of background ticks and
    [get] calls, whatever the sources answer, unsets it, and [get] returns
    a set value. *)
Theorem C5_cached_value_is_never_cleared :
  (forall es,
      Rates.ton_usd (Rates.run es Rates.rates_cache) = None
      <-> Rates.any_refreshed es Rates.rates_cache = false)
  /\ (forall c es, Rates.ton_usd c <> None -> Rates.ton_usd (Rates.run es c) <> None)
  /\ (forall c cg bn now,
         Rates.ton_usd c <> None ->
         Rates.ton_usd (Rates.update_rates cg bn now c) <> None)
  /\ (forall c t cg bn now,
         Rates.ton_usd c <> None ->
         fst (fst (Rates.get_ton_price t cg bn now c)) <> None)
  /\ (forall es,
         GetGems.price (GetGems.run es GetGems.floor_price_cache) = None
         <-> GetGems.any_refreshed es GetGems.floor_price_cache = false)
  /\ (forall c es, GetGems.price c <> None -> GetGems.price (GetGems.run es c) <> None)
  /\ (forall c now,
         GetGems.price c <> None ->
         GetGems.update_floor_price None now c = c)
  /\ (forall c t f now,
         GetGems.price c <> None ->
         GetGems.price (fst (GetGems.get_floor_price t f now c)) <> None).
Proof.
  split; [intros es; now apply RatesFacts.unset_iff_never_refreshed|].
  split; [intros c es; apply RatesFacts.run_keeps_value|].
  split; [intros c cg bn now; apply RatesFacts.update_rates_keeps_value|].
  split; [intros c t cg bn now; apply RatesFacts.get_returns_cached|].
  split; [intros es; now apply GetGemsFacts.floor_unset_iff_never_refreshed|].
  split; [intros c es; apply GetGemsFacts.floor_run_keeps_value|].
  split; [reflexivity|].
  intros c t f now H.
  exact (GetGemsFacts.floor_step_keeps_value c (GetGems.Get t f now) H).
Qed.

Lemma C5_cached_value_witness :
  Rates.ton_usd
    (Rates.run [Rates.Tick None None (Z2Qc 120);
                Rates.Get (Z2Qc 500) None None (Z2Qc 501)]
       (Rates.update_rates (Some CacheSpec.five) None (Z2Qc 0) Rates.rates_cache))
  <> None.
Proof.
  apply (proj1 (proj2 C5_cached_value_is_never_cleared)). discriminate.
Defined.


(** C7, as amended: after a refresh each per-source entry is what that
    source returned in this very round, so the entry of a source that
    failed is unset; the earlier value of a source survives only inside
    the composite. *)
Theorem C7_source_detail_is_this_round (cg bn : option pyfloat) (now : Qc) (c : Rates.cache) :
  Rates.source1 (Rates.update_rates cg bn now c) = cg
  /\ Rates.source2 (Rates.update_rates cg bn now c) = bn
  /\ Rates.last_update (Rates.update_rates cg bn now c) = now.
Proof.
  unfold Rates.update_rates.
  destruct cg, bn; simpl; try (repeat split; reflexivity);
    destruct (Rates.ton_usd c); repeat split; reflexivity.
Qed.

(** C7 as stated fails: after a round in which both sources answered, a
    round in which the first source fails erases its entry. *)
Lemma C7_failed_source_is_erased :
  let c := Rates.update_rates (Some CacheSpec.five) (Some CacheSpec.seven) (Z2Qc 100) Rates.rates_cache in
  Rates.source1 c = Some CacheSpec.five
  /\ Rates.source1 (Rates.update_rates None (Some CacheSpec.seven) (Z2Qc 220) c) = None
  /\ ~ CacheSpec.source_detail_retained c None (Some CacheSpec.seven) (Z2Qc 220).
Proof.
  split; [reflexivity|]. split; [reflexivity|].
  intros [H _]. specialize (H eq_refl). discriminate H.
Qed.

End CacheClaims.

(** ** The page interpreter (services/handler.py) *)

Module HandlerFacts.

Import ResultArticles Soup Handler.

Lemma fetched_page (w : world) (query : string) (p : page) :
  fragment w query = PageReply 200 p ->
  get_fragment_page (fragment w query) = Returns (FetchedText p).
Proof. intros ->. reflexivity. Qed.

Lemma error_is_not_unavailable (query : string) :
  error_answer query <> unavailable_answer query.
Proof.
  intros H. apply (f_equal (fun a => List.map id (results a))) in H. discriminate H.
Qed.

Lemma error_is_not_a_result (query status message : string) (keyboard_rows : list (list button)) :
  error_answer query <> StatusSpec.result_answer status query message keyboard_rows.
Proof.
  intros H. apply (f_equal (fun a => List.map id (results a))) in H. discriminate H.
Qed.



Lemma on_auction_requests (w : world) (soup : tag) (html query : string) :
  snd (on_auction_rows w soup html query)
  = snd (fetch_auction_config_from_tonapi (tonapi w) query html).
Proof.
  unfold on_auction_rows.
  destruct (fetch_auction_config_from_tonapi (tonapi w) query html) as [[d|] sent];
    reflexivity.
Qed.

Lemma handle_query_on_auction (w : world) (query : string) (p : page) :
  fragment w query = PageReply 200 p ->
  Str.is_empty (html_text p) = false ->
  get_username_status (document (parsed p)) = Some "On auction" ->
  handle_query w query
  = match on_auction_rows w (document (parsed p)) (html_text p) query with
    | (Raises _, _, sent) => (error_answer query, sent)
    | (Returns keyboard_rows, minimum_bid_info, sent) =>
        (StatusSpec.result_answer "On auction" query
           (StatusSpec.base_message "On auction" query ++ StatusSpec.bids_suffix minimum_bid_info
            ++ StatusSpec.ends_in_line (document (parsed p)))
           keyboard_rows, sent)
    end.
Proof.
  intros F E S. unfold handle_query.
  rewrite (fetched_page w query p F), E, S.
  change (Str.is_empty "On auction") with false.
  change (String.eqb "On auction" "Available") with false.
  change (String.eqb "On auction" "On auction") with true.
  cbv beta iota delta [orb].
  destruct (on_auction_rows w (document (parsed p)) (html_text p) query)
    as [[[keyboard_rows | e] minimum_bid_info] sent]; [|reflexivity].
  unfold StatusSpec.result_answer, StatusSpec.result_article, StatusSpec.ends_in_line,
    StatusSpec.base_message, StatusSpec.bids_suffix.
  destruct minimum_bid_info; destruct (extract_ends_in_info (document (parsed p))) as [e|];
    try destruct (negb (Str.is_empty e));
    rewrite ?StrFacts.append_assoc, ?StrFacts.append_nil_r; reflexivity.
Qed.


End HandlerFacts.

Module HandlerClaims.

Import ResultArticles Soup Handler.

(** C1: when the page is fetched and parsed but has no status marker, the
    handler extracts nothing, sends no request, does not raise, and
    answers with the "Error checking username" article, which has no
    keyboard, is cached for [ERROR_CACHE_TIME] seconds and differs from
    the answer for an unavailable name. *)
Theorem C1_missing_status_marker (w : world) (query : string) (p : page) :
  fragment w query = PageReply 200 p ->
  Str.is_empty (html_text p) = false ->
  select_one [cls ["tm-section-header-status"]] (document (parsed p)) = None ->
  get_username_status (document (parsed p)) = None
  /\ handle_query w query = (error_answer query, [])
  /\ results (error_answer query) = [error_checking_username_article query]
  /\ title (error_checking_username_article query) = "Error checking username"
  /\ reply_markup (error_checking_username_article query) = None
  /\ cache_time (error_answer query) = Config.ERROR_CACHE_TIME
  /\ error_answer query <> unavailable_answer query.
Proof.
  intros F E S.
  assert (G : get_username_status (document (parsed p)) = None)
    by (unfold get_username_status; now rewrite S).
  split; [exact G|].
  split.
  { unfold handle_query. rewrite (HandlerFacts.fetched_page w query p F), E, G. reflexivity. }
  repeat split. apply HandlerFacts.error_is_not_unavailable.
Qed.

Lemma C1_missing_status_marker_witness :
  handle_query (Samples.serving Samples.page_without_status Samples.tonapi_not_found) "abcde"
  = (error_answer "abcde", []).
Proof.
  apply (C1_missing_status_marker
           (Samples.serving Samples.page_without_status Samples.tonapi_not_found)
           "abcde" Samples.page_without_status); reflexivity.
Defined.




End HandlerClaims.

Module AuctionClaims.

Import ResultArticles Soup Handler.




(** The two examples of the count-down, and the defaults for digits that
    are missing. *)
Lemma countdown_examples :
  format_ends_in "0 days" "02" "05" = Returns "2h 5m"
  /\ format_ends_in "1 day" "00" "00" = Returns "1d 0h 0m"
  /\ extract_ends_in_info
       (Samples.countdown_page (Some "0 days") (Some "0") (Some "2") (Some "0") (Some "5"))
     = Some "2h 5m"
  /\ extract_ends_in_info
       (Samples.countdown_page (Some "1 day") (Some "0") (Some "0") (Some "0") (Some "0"))
     = Some "1d 0h 0m"
  /\ extract_ends_in_info
       (Samples.countdown_page None (Some "0") (Some "2") (Some "0") (Some "5"))
     = Some "2h 5m"
  /\ extract_ends_in_info
       (Samples.countdown_page (Some "3 days") None (Some "2") (Some "0") None)
     = Some "3d 0h 0m"
  /\ extract_ends_in_info (Samples.countdown_page None None None None None)
     = Some "0h 0m".
Proof. repeat split; vm_compute; reflexivity. Qed.

(** C4 fails on the code: with 10 days left the widget reads
    "10 days", the test ["0 days" in days_text] succeeds, and the days are
    left out of the count-down. *)
Theorem C4_ten_days_are_dropped :
  Str.contains "0 days" "10 days" = true
  /\ format_ends_in "10 days" "02" "05" = Returns "2h 5m"
  /\ extract_ends_in_info
       (Samples.countdown_page (Some "10 days") (Some "0") (Some "2") (Some "0") (Some "5"))
     = Some "2h 5m"
  /\ format_ends_in "9 days" "02" "05" = Returns "9d 2h 5m".
Proof. repeat split; vm_compute; reflexivity. Qed.

End AuctionClaims.

Module ResolverClaims.

Import ResultArticles Handler.






(** An auction of the platform and an auction of a user, resolved in two
    requests. *)
Example resolved_auctions :
  let mint := Samples.tonapi_auction Config.FRAGMENT_MINT_ADDRESS in
  let user := Samples.tonapi_auction "0:77aa" in
  let html := html_text Samples.auction_without_bids in
  snd (fetch_auction_config_from_tonapi mint "abcde" html)
  = [DnsLookup "abcde"; AuctionConfig Samples.sample_address]
  /\ option_map create_enhanced_auction_source_button
       (fst (fetch_auction_config_from_tonapi mint "abcde" html))
     = Some (Returns (Some fragment_mint_button))
  /\ option_map create_enhanced_auction_source_button
       (fst (fetch_auction_config_from_tonapi user "abcde" html))
     = Some (Returns (Some (user_auction_button (Json.JStr "0:77aa")))).
Proof. repeat split; vm_compute; reflexivity. Qed.

End ResolverClaims.

(** * Further properties of the code *)

(** ** Queries (bot.py, services/price_converter.py) *)

Module QueryFacts.

Import PriceConverter.


End QueryFacts.

(** ** Pages that are not interpreted (services/handler.py) *)

Module FetchFacts.

Import ResultArticles Soup Handler.

Lemma not_200 (status : Z) (body : page) :
  status <> 200%Z ->
  get_fragment_page (PageReply status body) = Returns FetchedNone
  \/ get_fragment_page (PageReply status body) = Returns FetchedFalse.
Proof.
  intros H. unfold get_fragment_page.
  destruct (is_redirect status); [now left|].
  apply Z.eqb_neq in H. rewrite H. now right.
Qed.

(** X2: a request that raises is answered with the error article; every
    response whose status is not 200, redirects included, and every empty
    body is answered as "unavailable", cached for
    [UNAVAILABLE_USERNAME_CACHE_TIME] seconds; in none of these cases is
    tonapi.io asked. *)
Theorem X2_unfetched_page (w : world) (query : string) :
  (fragment w query = NoPage -> handle_query w query = (error_answer query, []))
  /\ (forall status body,
         fragment w query = PageReply status body ->
         status <> 200%Z ->
         handle_query w query = (unavailable_answer query, []))
  /\ (forall body,
         fragment w query = PageReply 200 body ->
         html_text body = "" ->
         handle_query w query = (unavailable_answer query, []))
  /\ cache_time (unavailable_answer query) = Config.UNAVAILABLE_USERNAME_CACHE_TIME
  /\ List.map message_text (results (unavailable_answer query))
     = ["❌ @" ++ query ++ " is *unavailable*"].
Proof.
  split; [|split; [|split; [|split]]].
  - intros H. unfold handle_query. now rewrite H.
  - intros status body H N. unfold handle_query. rewrite H.
    destruct (not_200 status body N) as [-> | ->]; reflexivity.
  - intros body H E. unfold handle_query.
    rewrite (HandlerFacts.fetched_page w query body H), E. reflexivity.
  - reflexivity.
  - reflexivity.
Qed.

Lemma X2_unfetched_page_witness :
  handle_query
    {| fragment := fun _ => PageReply 302 Samples.page_without_status;
       tonapi := Samples.tonapi_not_found |} "abcde"
  = (unavailable_answer "abcde", []).
Proof.
  apply (proj1 (proj2 (X2_unfetched_page
                         {| fragment := fun _ => PageReply 302 Samples.page_without_status;
                            tonapi := Samples.tonapi_not_found |} "abcde"))
           302%Z Samples.page_without_status); [reflexivity | discriminate].
Defined.

(** The requests of [handle_query] are those of the resolver, and there
    are none unless the status reads "On auction". *)
Lemma requests_of_handle_query (w : world) (query : string) :
  snd (handle_query w query) = []
  \/ exists p,
       fragment w query = PageReply 200 p
       /\ get_username_status (document (parsed p)) = Some "On auction"
       /\ snd (handle_query w query)
          = snd (fetch_auction_config_from_tonapi (tonapi w) query (html_text p)).
Proof.
  unfold handle_query.
  destruct (fragment w query) as [|status p] eqn:F; [now left|].
  unfold get_fragment_page.
  destruct (is_redirect status); [now left|].
  destruct (status =? 200)%Z eqn:S; [|now left].
  apply Z.eqb_eq in S. subst status.
  destruct (Str.is_empty (html_text p)); [now left|].
  destruct (get_username_status (document (parsed p))) as [status|] eqn:G; [|now left].
  destruct (Str.is_empty status); [now left|].
  destruct (String.eqb status "Available"); [now left|].
  destruct (String.eqb status "On auction") eqn:A.
  - apply String.eqb_eq in A. subst status. right. exists p.
    split; [reflexivity|]. split; [exact G|].
    rewrite <- (HandlerFacts.on_auction_requests w (document (parsed p)) (html_text p) query).
    destruct (on_auction_rows w (document (parsed p)) (html_text p) query)
      as [[[keyboard_rows | e] minimum_bid_info] sent]; reflexivity.
  - destruct (String.eqb status "Sold"); [now left|].
    destruct (String.eqb status "For sale"); now left.
Qed.

(** X3: tonapi.io is asked only about a name whose page was fetched with
    status 200, reads "On auction" and does not hold the text
    "Ownership History"; the first request is then the lookup of that
    name. *)
Theorem X3_lookups_only_for_auctions (w : world) (query : string) :
  snd (handle_query w query) <> [] ->
  exists p,
    fragment w query = PageReply 200 p
    /\ get_username_status (document (parsed p)) = Some "On auction"
    /\ Str.contains "Ownership History" (html_text p) = false
    /\ hd_error (snd (handle_query w query)) = Some (DnsLookup query).
Proof.
  intros H.
  destruct (requests_of_handle_query w query) as [E | (p & F & G & E)]; [congruence|].
  exists p. split; [exact F|]. split; [exact G|].
  rewrite E in *.
  unfold fetch_auction_config_from_tonapi in *.
  destruct (Str.contains "Ownership History" (html_text p)); cbn [negb] in *;
    [now elim H|].
  split; [reflexivity|].
  destruct (tonapi w (DnsLookup query)) as [|status [dns_data|]]; try reflexivity.
  - destruct (negb (status =? 200)%Z); [reflexivity|].
    destruct (nested_item dns_data "item" "address") as [[address|] | e]; try reflexivity.
    destruct (tonapi w (AuctionConfig address)) as [|st [auction_data|]]; try reflexivity.
    + destruct (negb (st =? 200)%Z); [reflexivity|].
      destruct (nested_item auction_data "decoded" "beneficiar"); reflexivity.
    + destruct (negb (st =? 200)%Z); reflexivity.
  - destruct (negb (status =? 200)%Z); reflexivity.
Qed.

Lemma X3_lookups_witness :
  exists p,
    fragment (Samples.serving Samples.auction_without_bids Samples.tonapi_not_found) "abcde"
    = PageReply 200 p
    /\ get_username_status (document (parsed p)) = Some "On auction"
    /\ Str.contains "Ownership History" (html_text p) = false
    /\ hd_error (snd (handle_query
                        (Samples.serving Samples.auction_without_bids
                           Samples.tonapi_not_found) "abcde"))
       = Some (DnsLookup "abcde").
Proof.
  apply (X3_lookups_only_for_auctions
           (Samples.serving Samples.auction_without_bids Samples.tonapi_not_found) "abcde").
  vm_compute. discriminate.
Defined.

End FetchFacts.

(** ** A source button that raises (services/handler.py,
    services/result_articles.py) *)

Module SourceButtonFacts.

Import ResultArticles Soup Handler.

Lemma array_config_raises (items : list Json.json) (address : Json.json) :
  existsb (fun i => Json.eq_str i "decoded") items = false ->
  nested_item (Json.JArr items) "decoded" "beneficiar" = Returns None
  /\ create_enhanced_auction_source_button
       {| address := address; auction_config := Json.JArr items |}
     = Raises "AttributeError".
Proof.
  intros H. split.
  - unfold nested_item. cbn [Json.py_in bind]. now rewrite H.
  - reflexivity.
Qed.

(** X4: when the resolver accepts the auction configuration but the
    source button raises on it, as it does on a JSON array, the handler
    drops the buttons already extracted and answers with the error
    article, after both requests. *)
Theorem X4_raising_source_button (w : world) (query : string) (p : page)
    (dns_data address auction_data : Json.json) (r : option Json.json) (e : string) :
  fragment w query = PageReply 200 p ->
  Str.is_empty (html_text p) = false ->
  get_username_status (document (parsed p)) = Some "On auction" ->
  Str.contains "Ownership History" (html_text p) = false ->
  tonapi w (DnsLookup query) = Reply 200 (Some dns_data) ->
  nested_item dns_data "item" "address" = Returns (Some address) ->
  tonapi w (AuctionConfig address) = Reply 200 (Some auction_data) ->
  nested_item auction_data "decoded" "beneficiar" = Returns r ->
  create_enhanced_auction_source_button
    {| address := address; auction_config := auction_data |} = Raises e ->
  handle_query w query = (error_answer query, [DnsLookup query; AuctionConfig address]).
Proof.
  intros F E S O D N A C B.
  rewrite (HandlerFacts.handle_query_on_auction w query p F E S).
  unfold on_auction_rows, fetch_auction_config_from_tonapi.
  rewrite O, D. cbn [negb Z.eqb Pos.eqb]. rewrite N, A. cbn [negb Z.eqb Pos.eqb].
  rewrite C, B. reflexivity.
Qed.

Lemma X4_raising_source_button_witness :
  let api r :=
    match r with
    | DnsLookup _ => Samples.tonapi_auction "0:77" r
    | AuctionConfig _ => Reply 200 (Some (Json.JArr [Json.JStr "error"]))
    end in
  handle_query (Samples.serving Samples.auction_without_bids api) "abcde"
  = (error_answer "abcde", [DnsLookup "abcde"; AuctionConfig Samples.sample_address]).
Proof.
  intros api.
  apply (X4_raising_source_button
           (Samples.serving Samples.auction_without_bids api) "abcde"
           Samples.auction_without_bids
           (Json.JObj [("name", Json.JStr "abcde.t.me");
                       ("item", Json.JObj [("address", Samples.sample_address)])])
           Samples.sample_address (Json.JArr [Json.JStr "error"]) None "AttributeError");
    reflexivity.
Defined.

End SourceButtonFacts.

(** ** The life of the caches (services/rates.py, services/getgems.py) *)

Module CacheLifeFacts.

Lemma gtb_false_iff (x y : Qc) : FloatOps.gtb x y = false <-> (x <= y)%Qc.
Proof.
  unfold FloatOps.gtb. rewrite Qcle_alt.
  destruct (x ?= y)%Qc; split; intros H; try reflexivity; try discriminate; congruence.
Qed.

(** X5: every refresh of the rates, failed or not, restarts the clock:
    when a composite exists, a [get_ton_price] within
    [TON_RATE_CACHE_DURATION] seconds of the refresh returns it without a
    new refresh, whatever the sources would answer. *)
Theorem X5_refresh_restarts_the_clock (c : Rates.cache) (cg bn cg' bn' : option pyfloat)
    (now current_time now' : Qc) :
  Rates.ton_usd (Rates.update_rates cg bn now c) <> None ->
  (current_time - now <= Z2Qc Config.TON_RATE_CACHE_DURATION)%Qc ->
  Rates.get_ton_price current_time cg' bn' now' (Rates.update_rates cg bn now c)
  = ((Rates.ton_usd (Rates.update_rates cg bn now c),
      {| Rates.info_source1 := cg; Rates.info_source2 := bn;
         Rates.info_last_update := now |}),
     Rates.update_rates cg bn now c).
Proof.
  intros H T. unfold Rates.get_ton_price.
  assert (S1 : Rates.source1 (Rates.update_rates cg bn now c) = cg)
    by (unfold Rates.update_rates; destruct cg, bn, (Rates.ton_usd c); reflexivity).
  assert (S2 : Rates.source2 (Rates.update_rates cg bn now c) = bn)
    by (unfold Rates.update_rates; destruct cg, bn, (Rates.ton_usd c); reflexivity).
  assert (L : Rates.last_update (Rates.update_rates cg bn now c) = now)
    by (unfold Rates.update_rates; destruct cg, bn, (Rates.ton_usd c); reflexivity).
  destruct (Rates.ton_usd (Rates.update_rates cg bn now c)) eqn:U; [|congruence].
  rewrite L. apply gtb_false_iff in T. rewrite T.
  rewrite U, S1, S2, L. reflexivity.
Qed.

Lemma X5_refresh_restarts_the_clock_witness :
  let c := Rates.update_rates (Some CacheSpec.five) None (Z2Qc 0) Rates.rates_cache in
  Rates.get_ton_price (Z2Qc 130) (Some CacheSpec.seven) None (Z2Qc 131)
    (Rates.update_rates None None (Z2Qc 100) c)
  = ((Rates.ton_usd (Rates.update_rates None None (Z2Qc 100) c),
      {| Rates.info_source1 := None; Rates.info_source2 := None;
         Rates.info_last_update := Z2Qc 100 |}),
     Rates.update_rates None None (Z2Qc 100) c).
Proof.
  intros c. apply X5_refresh_restarts_the_clock.
  - discriminate.
  - apply gtb_false_iff. reflexivity.
Defined.

(** A step of the floor-price cache either leaves it as it is or replaces
    it by the listing its event carries. *)
Lemma floor_step_cases (c : GetGems.cache) (e : GetGems.event) :
  GetGems.step c e = c
  \/ exists d now, CacheShape.carries d now e
                   /\ GetGems.step c e = CacheShape.from_fetch d now.
Proof.
  destruct e as [[d|] now | t [d|] now]; cbn [GetGems.step GetGems.update_floor_price].
  - right. exists d, now. split; [split; reflexivity | reflexivity].
  - now left.
  - unfold GetGems.get_floor_price.
    destruct (GetGems.price c).
    + destruct (_ >? _)%Z; cbn [fst GetGems.update_floor_price].
      * right. exists d, now. split; [split; reflexivity | reflexivity].
      * now left.
    + right. exists d, now. split; [split; reflexivity | reflexivity].
  - left. unfold GetGems.get_floor_price.
    destruct (GetGems.price c); [destruct (_ >? _)%Z|]; reflexivity.
Qed.

Lemma floor_run_app (es : list GetGems.event) (e : GetGems.event) (c : GetGems.cache) :
  GetGems.run (es ++ [e]) c = GetGems.step (GetGems.run es c) e.
Proof. unfold GetGems.run. now rewrite fold_left_app. Qed.

(** X6: the floor-price cache is replaced as a whole.  After any sequence
    of ticks and [get] calls it is the initial cache, or its price, number,
    address and time stamp are those of one and the same successful fetch
    of the sequence. *)
Theorem X6_floor_cache_is_one_listing (es : list GetGems.event) :
  GetGems.run es GetGems.floor_price_cache = GetGems.floor_price_cache
  \/ exists d now e,
       In e es /\ CacheShape.carries d now e
       /\ GetGems.run es GetGems.floor_price_cache = CacheShape.from_fetch d now.
Proof.
  induction es as [|e es IH] using rev_ind; [now left|].
  rewrite floor_run_app.
  destruct (floor_step_cases (GetGems.run es GetGems.floor_price_cache) e)
    as [-> | (d & now & C & ->)].
  - destruct IH as [IH | (d & now & e0 & I & C & IH)]; [now left|].
    right. exists d, now, e0. split; [apply in_or_app; now left | auto].
  - right. exists d, now, e. split; [apply in_or_app; right; now left | auto].
Qed.

End CacheLifeFacts.

(** ** Replacement, character by character *)

Module CharMapFacts.

Import CharMap.

Lemma concat_map_app (f : ascii -> string) (a b : string) :
  concat_map f (a ++ b) = concat_map f a ++ concat_map f b.
Proof.
  induction a as [|c a IH]; simpl; [reflexivity|].
  now rewrite IH, StrFacts.append_assoc.
Qed.

Lemma prefix_nil (s : string) : prefix "" s = true.
Proof. now destruct s. Qed.

(** Replacing a one-character [old] works on each character by itself. *)
Lemma replace_single (a : ascii) (new s : string) :
  Str.replace (String a "") new s = concat_map (swap a new) s.
Proof.
  unfold Str.replace. induction s as [|c s IH]; [reflexivity|].
  cbn [Str.replace_from concat_map String.length Nat.sub prefix].
  unfold swap at 1.
  destruct (ascii_dec a c) as [<- | N].
  - now rewrite Ascii.eqb_refl, prefix_nil, IH.
  - replace (Ascii.eqb c a) with false
      by (symmetry; apply Ascii.eqb_neq; congruence).
    now rewrite IH.
Qed.

Lemma concat_map_id (f : ascii -> string) (s : string) :
  (forall c, f c = String c "") -> concat_map f s = s.
Proof.
  intros H. induction s as [|c s IH]; simpl; [reflexivity|].
  now rewrite H, IH.
Qed.

Lemma concat_map_unchanged (f : ascii -> string) (p : ascii -> bool) (s : string) :
  (forall c, p c = true -> f c = String c "") ->
  Str.forallb p s = true -> concat_map f s = s.
Proof.
  intros H. induction s as [|c s IH]; simpl; [reflexivity|].
  intros F. apply andb_true_iff in F as [Fc Fs]. now rewrite (H c Fc), (IH Fs).
Qed.

(** A character that does not occur is replaced nowhere. *)
Lemma replace_absent (a : ascii) (new s : string) :
  Str.forallb (fun c => negb (Ascii.eqb c a)) s = true ->
  Str.replace (String a "") new s = s.
Proof.
  intros H. rewrite replace_single.
  apply (concat_map_unchanged _ (fun c => negb (Ascii.eqb c a))); [|exact H].
  intros c Hc. unfold swap. apply negb_true_iff in Hc. now rewrite Hc.
Qed.

Lemma forallb_weaken (p q : ascii -> bool) (s : string) :
  (forall c, p c = true -> q c = true) ->
  Str.forallb p s = true -> Str.forallb q s = true.
Proof.
  intros H. induction s as [|c s IH]; simpl; [reflexivity|].
  intros F. apply andb_true_iff in F as [Fc Fs]. now rewrite (H c Fc), (IH Fs).
Qed.

Lemma length_concat_map_escape (s : string) :
  String.length (concat_map escape_char s) = String.length s + count is_special s.
Proof.
  induction s as [|c s IH]; simpl; [reflexivity|].
  rewrite StrFacts.length_append, IH. unfold escape_char.
  destruct (is_special c); simpl; lia.
Qed.

End CharMapFacts.

(** ** escape_markdown (services/result_articles.py) *)

Module EscapeFacts.

Import CharMap ResultArticles.

Lemma step_app (a : ascii) (x y : string) :
  escape_step (x ++ y) (String a "")
  = escape_step x (String a "") ++ escape_step y (String a "").
Proof.
  unfold escape_step.
  now rewrite !CharMapFacts.replace_single, CharMapFacts.concat_map_app.
Qed.

Lemma steps_app (chars : list string) :
  Forall (fun char => exists a, char = String a "") chars ->
  forall x y,
    fold_left escape_step chars (x ++ y)
    = fold_left escape_step chars x ++ fold_left escape_step chars y.
Proof.
  induction 1 as [|char chars (a & ->) _ IH]; intros x y; cbn [fold_left];
    [reflexivity|].
  rewrite step_app. apply IH.
Qed.

Lemma special_chars_single :
  Forall (fun char => exists a, char = String a "") special_chars.
Proof. unfold special_chars. repeat constructor; eexists; reflexivity. Qed.

Lemma escape_one (c : ascii) : escape_markdown (String c "") = escape_char c.
Proof.
  destruct c as [[|] [|] [|] [|] [|] [|] [|] [|]]; vm_compute; reflexivity.
Qed.

(** X7: [escape_markdown] works character by character: each of the 18
    special characters gets one backslash in front and every other
    character stays, so nothing is escaped twice and the result is longer
    by the number of special characters. *)
Theorem X7_escape_markdown_characterwise (text : string) :
  escape_markdown text = concat_map escape_char text
  /\ String.length (escape_markdown text)
     = String.length text + count is_special text.
Proof.
  assert (E : escape_markdown text = concat_map escape_char text).
  { induction text as [|c text IH]; [reflexivity|].
    change (String c text) with (String c "" ++ text).
    unfold escape_markdown in *.
    change (fun t char => Str.replace char ("\" ++ char) t) with escape_step in *.
    rewrite (steps_app special_chars special_chars_single), IH.
    change (fold_left escape_step special_chars (String c ""))
      with (escape_markdown (String c "")).
    now rewrite escape_one. }
  split; [exact E|]. rewrite E. apply CharMapFacts.length_concat_map_escape.
Qed.

End EscapeFacts.

(** ** The text of a page and of its elements *)

Module TextFacts.

Import Soup.

Lemma prefix_iff (p s : string) : prefix p s = true <-> exists post, s = p ++ post.
Proof.
  revert s. induction p as [|a p IH]; intros s.
  - split; [intros _; now exists s | intros _; now destruct s].
  - destruct s as [|b s]; simpl.
    + split; [discriminate | intros (post & H); discriminate].
    + destruct (ascii_dec a b) as [<- | N].
      * rewrite IH. split; intros (post & H); exists post; [now rewrite H | now injection H].
      * split; [discriminate | intros (post & H); injection H; congruence].
Qed.

Lemma contains_unfold (sub s : string) :
  Str.contains sub s
  = prefix sub s || match s with
                    | EmptyString => false
                    | String _ s' => Str.contains sub s'
                    end.
Proof. destruct s; reflexivity. Qed.

Lemma contains_iff (sub s : string) :
  Str.contains sub s = true <-> exists pre post, s = pre ++ sub ++ post.
Proof.
  split.
  - induction s as [|c s IH]; rewrite contains_unfold; intros H;
      apply orb_true_iff in H as [H | H]; try discriminate.
    + apply prefix_iff in H as (post & H). now exists "", post.
    + apply prefix_iff in H as (post & H). now exists "", post.
    + destruct (IH H) as (pre & post & ->). now exists (String c pre), post.
  - intros (pre & post & ->). induction pre as [|c pre IH]; rewrite contains_unfold.
    + apply orb_true_iff. left. apply prefix_iff. now exists post.
    + apply orb_true_iff. right. exact IH.
Qed.

Lemma contains_inside (sub t a b : string) :
  Str.contains sub t = true -> Str.contains sub (a ++ t ++ b) = true.
Proof.
  intros H. apply contains_iff in H as (pre & post & ->).
  apply contains_iff. exists (a ++ pre), (post ++ b).
  now rewrite !StrFacts.append_assoc.
Qed.

(** The text of an element is a stretch of the text of every node it lies
    in. *)
Lemma elements_text :
  forall n following up d,
    In d (elements_from n following up) ->
    exists pre post, node_text n = pre ++ node_text (at_node (here d)) ++ post.
Proof.
  fix IH 1. intros [s | s | name classes attrs children] following up d H;
    cbn [elements_from] in H; try contradiction.
  destruct H as [<- | H].
  - exists "", "". cbn [here at_node]. now rewrite StrFacts.append_nil_r.
  - cbn [node_text].
    set (me := {| at_node := Element name classes attrs children; after := following |}) in H.
    clearbody me.
    induction children as [|m rest IHrest]; [contradiction|].
    apply in_app_or in H as [H | H].
    + destruct (IH m _ _ _ H) as (pre & post & E).
      exists pre. eexists. rewrite E, !StrFacts.append_assoc. reflexivity.
    + destruct (IHrest H) as (pre & post & E).
      exists (node_text m ++ pre), post. rewrite E, !StrFacts.append_assoc. reflexivity.
Qed.

Lemma descendant_text (sub : string) (t d : tag) :
  In d (descendants t) ->
  Str.contains sub (text d) = true -> Str.contains sub (text t) = true.
Proof.
  unfold descendants, text. intros I H.
  assert (I' : In d (elements_from (at_node (here t)) (after (here t)) (above t))).
  { destruct (elements_from _ _ _); [contradiction | now right]. }
  destruct (elements_text _ _ _ _ I') as (pre & post & ->).
  now apply contains_inside.
Qed.

Lemma find_all_descendant (name : string) (t d : tag) :
  In d (find_all name t) -> In d (descendants t).
Proof. unfold find_all. intros H. now apply filter_In in H. Qed.

Lemma find_descendant (name : string) (t d : tag) :
  find name t = Some d -> In d (descendants t).
Proof.
  unfold find. intros H. apply (find_all_descendant name).
  destruct (find_all name t); [discriminate|]. injection H as ->. now left.
Qed.

End TextFacts.

(** ** The two bid buttons (services/handler.py) *)

Module BidFacts.

Import ResultArticles Soup Handler.

Lemma highest_bid_header (tables : list tag) (username : string) (b : button) :
  highest_bid_in tables username = Some b ->
  exists table header,
    In table tables /\ find "th" table = Some header
    /\ Str.contains "Highest Bid" (text header) = true.
Proof.
  induction tables as [|table rest IH]; [discriminate|].
  cbn [highest_bid_in].
  destruct (find "th" table) as [header|] eqn:F.
  - destruct (Str.contains "Highest Bid" (text header)) eqn:C.
    + intros _. exists table, header. repeat split; auto. now left.
    + intros H. destruct (IH H) as (t & h & I & R). exists t, h. split; [now right | exact R].
  - intros H. destruct (IH H) as (t & h & I & R). exists t, h. split; [now right | exact R].
Qed.

(** X8: no page gives both a minimum-bid button and a highest-bid
    button: the header cell that yields the highest bid puts the words
    "Highest Bid" into the text of the page, and with them there the
    minimum bid is not looked for. *)
Theorem X8_one_bid_button (soup : tag) (username : string) :
  (forall b, extract_highest_bid_info soup username = Some b ->
             Str.contains "Highest Bid" (text soup) = true)
  /\ (extract_minimum_bid_info soup username = None
      \/ extract_highest_bid_info soup username = None).
Proof.
  assert (H : forall b, extract_highest_bid_info soup username = Some b ->
                        Str.contains "Highest Bid" (text soup) = true).
  { intros b E. unfold extract_highest_bid_info in E.
    destruct (highest_bid_header _ _ _ E) as (table & header & I & F & C).
    apply (TextFacts.descendant_text _ soup table).
    - now apply (TextFacts.find_all_descendant "table").
    - apply (TextFacts.descendant_text _ table header); [|exact C].
      now apply (TextFacts.find_descendant "th"). }
  split; [exact H|].
  destruct (extract_highest_bid_info soup username) as [b|] eqn:E; [|now right].
  left. unfold extract_minimum_bid_info. now rewrite (H b eq_refl).
Qed.

End BidFacts.

(** ** Amounts written and read back (services/handler.py) *)

Module AmountFacts.

Import CharMap.












End AmountFacts.

(** ** Identifiers are fixed points of the dispatcher (bot.py) *)

Module IdentifierFacts.

Import CharMap.

Lemma word_steady (c : ascii) : Config.word_class c = true -> steady c = true.
Proof.
  destruct c as [[|] [|] [|] [|] [|] [|] [|] [|]]; vm_compute; intros H;
    try reflexivity; discriminate H.
Qed.

Lemma word_not_numeric (c : ascii) :
  Config.lower_class c = true -> PriceConverter.numeric_class c = false.
Proof.
  destruct c as [[|] [|] [|] [|] [|] [|] [|] [|]]; vm_compute; intros H;
    try reflexivity; discriminate H.
Qed.

Lemma word_not_space (c : ascii) : Config.lower_class c = true -> Str.is_space c = false.
Proof.
  destruct c as [[|] [|] [|] [|] [|] [|] [|] [|]]; vm_compute; intros H;
    try reflexivity; discriminate H.
Qed.

Lemma lower_word (c : ascii) : Config.lower_class c = true -> Config.word_class c = true.
Proof. unfold Config.lower_class, Config.word_class. now intros ->. Qed.

Lemma alnum_word (c : ascii) : Config.alnum_class c = true -> Config.word_class c = true.
Proof.
  unfold Config.alnum_class, Config.word_class. intros H.
  apply orb_true_iff in H as [-> | ->]; [reflexivity | apply orb_true_iff; left; apply orb_true_r].
Qed.

Lemma shape_steady (s : string) :
  Grammar.identifier_shape 4 s ->
  Str.forallb steady s = true
  /\ exists first rest, s = String first rest /\ Config.lower_class first = true.
Proof.
  intros (first & interior & last & -> & L & I & A & _). split; [|eauto].
  cbn [Str.forallb]. rewrite (word_steady first (lower_word first L)).
  rewrite StrFacts.forallb_append.
  rewrite (CharMapFacts.forallb_weaken _ steady interior word_steady I).
  cbn [Str.forallb]. now rewrite (word_steady last (alnum_word last A)).
Qed.

Lemma accepted_steady (s : string) :
  Grammar.accepted_identifier s ->
  Str.forallb steady s = true
  /\ exists first rest, s = String first rest /\ Config.lower_class first = true.
Proof.
  intros [H | (s' & -> & H)]; [now apply shape_steady|].
  destruct (shape_steady s' H) as (F & first & rest & -> & L). split.
  - rewrite StrFacts.forallb_append, F. reflexivity.
  - exists first, (rest ++ String Re.newline ""). split; [reflexivity | exact L].
Qed.

Lemma lstrip_keeps (p : ascii -> bool) (a : string) (c : ascii) (b : string) :
  p c = false -> Str.lstrip_by p (a ++ String c b) <> "".
Proof.
  intros H. induction a as [|x a IH]; cbn [append Str.lstrip_by].
  - rewrite H. discriminate.
  - destruct (p x); [exact IH | discriminate].
Qed.

Lemma rev_nonempty (s : string) : s <> "" -> Str.rev s <> "".
Proof.
  intros N E. apply N. rewrite <- (StrFacts.rev_involutive s), E. reflexivity.
Qed.

Lemma strip_nonempty (c : ascii) (s : string) :
  Str.is_space c = false -> Str.is_empty (Str.strip (String c s)) = false.
Proof.
  intros H. unfold Str.strip, Str.strip_by, Str.rstrip_by.
  cbn [Str.lstrip_by]. rewrite H, StrFacts.rev_cons.
  pose proof (rev_nonempty _ (lstrip_keeps Str.is_space (Str.rev s) c "" H)) as N.
  destruct (Str.rev (Str.lstrip_by Str.is_space (Str.rev s ++ String c "")));
    [congruence | reflexivity].
Qed.

Lemma steady_fixed (s : string) :
  Str.forallb steady s = true ->
  Str.replace " " "" s = s /\ Str.lower s = s /\ Str.replace "@" "" s = s.
Proof.
  intros H. split; [|split].
  - apply CharMapFacts.replace_absent.
    apply (CharMapFacts.forallb_weaken steady); [|exact H].
    intros c S. unfold steady in S.
    apply andb_true_iff in S as [S _]. now apply andb_true_iff in S as [S _].
  - unfold Str.lower. induction s as [|c s IH]; [reflexivity|].
    cbn [Str.forallb Str.map] in *. apply andb_true_iff in H as [Hc Hs].
    rewrite (IH Hs). f_equal. unfold Str.lower_char, steady in *.
    apply andb_true_iff in Hc as [_ U]. apply negb_true_iff in U. now rewrite U.
  - apply CharMapFacts.replace_absent.
    apply (CharMapFacts.forallb_weaken steady); [|exact H].
    intros c S. unfold steady in S.
    apply andb_true_iff in S as [S _]. now apply andb_true_iff in S as [_ S].
Qed.

Lemma letter_first_not_numeric (first : ascii) (rest : string) :
  Config.lower_class first = true ->
  PriceConverter.is_numeric_query (String first rest) = false.
Proof.
  intros L. destruct (PriceConverter.is_numeric_query (String first rest)) eqn:E;
    [|reflexivity].
  apply PriceConverterFacts.is_numeric_query_shape in E
    as (s & tail & E & N & F & _).
  destruct s as [|c s]; [congruence|]. injection E as <- _.
  cbn [Str.forallb] in F. apply andb_true_iff in F as [F _].
  rewrite (word_not_numeric first L) in F. discriminate F.
Qed.

Lemma identifier_is_valid (query processed : string) :
  Bot.handle_inline_query query = Bot.Identifier processed ->
  Bot.is_valid_query processed = true.
Proof.
  unfold Bot.handle_inline_query.
  destruct (Str.is_empty (Str.strip query)); [discriminate|].
  destruct (PriceConverter.is_numeric_query (Str.replace " " "" query)); [discriminate|].
  destruct (Bot.is_valid_query
              (Str.replace "@" "" (Str.lower (Str.replace " " "" query)))) eqn:V;
    [|discriminate].
  intros H. injection H as <-. exact V.
Qed.

(** X10: what the dispatcher passes on as an identifier it classifies
    again in the same way: the identifier holds no space, no [@] and no
    capital letter, is not blank and is not numeric, so the normalisation
    leaves it as it is. *)
Theorem X10_identifier_is_a_fixed_point (query processed : string) :
  Bot.handle_inline_query query = Bot.Identifier processed ->
  Bot.handle_inline_query processed = Bot.Identifier processed
  /\ Grammar.normalize processed = processed.
Proof.
  intros H. apply identifier_is_valid in H. rename processed into n, H into V.
  destruct (accepted_steady n (proj1 (BotFacts.is_valid_query_iff n) V))
    as (S & first & rest & E & L).
  destruct (steady_fixed n S) as (R1 & R2 & R3).
  assert (N : Grammar.normalize n = n)
    by (unfold Grammar.normalize; now rewrite R1, R2, R3).
  split; [|exact N].
  assert (B : Str.is_empty (Str.strip n) = false)
    by (rewrite E; apply strip_nonempty, word_not_space, L).
  assert (Q : PriceConverter.is_numeric_query n = false)
    by (rewrite E; apply letter_first_not_numeric, L).
  unfold Bot.handle_inline_query. rewrite B. cbv zeta.
  now rewrite R1, Q, R2, R3, V.
Qed.

Lemma X10_identifier_witness :
  Bot.handle_inline_query "ab_cd9" = Bot.Identifier "ab_cd9"
  /\ Grammar.normalize "ab_cd9" = "ab_cd9".
Proof.
  apply (X10_identifier_is_a_fixed_point " @Ab_cd9" "ab_cd9"). reflexivity.
Defined.

End IdentifierFacts.

(** ** Stripping at the right end *)

Module StripFacts.

Lemma lstrip_all (p : ascii -> bool) (x y : string) :
  Str.forallb p x = true -> Str.lstrip_by p (x ++ y) = Str.lstrip_by p y.
Proof.
  induction x as [|c x IH]; [reflexivity|]. cbn [Str.forallb append Str.lstrip_by].
  intros H. apply andb_true_iff in H as [Hc Hx]. rewrite Hc. now apply IH.
Qed.

Lemma lstrip_stops (p : ascii -> bool) (x y : string) :
  Str.forallb p x = false -> Str.lstrip_by p (x ++ y) = Str.lstrip_by p x ++ y.
Proof.
  induction x as [|c x IH]; [discriminate|]. cbn [Str.forallb append Str.lstrip_by].
  destruct (p c); [exact IH | reflexivity].
Qed.

Lemma lstrip_none (p : ascii -> bool) (x : string) :
  Str.forallb (fun c => negb (p c)) x = true -> Str.lstrip_by p x = x.
Proof.
  destruct x as [|c x]; [reflexivity|]. cbn [Str.forallb Str.lstrip_by].
  intros H. apply andb_true_iff in H as [Hc _]. apply negb_true_iff in Hc. now rewrite Hc.
Qed.

Lemma lstrip_of_all (p : ascii -> bool) (x : string) :
  Str.forallb p x = true -> Str.lstrip_by p x = "".
Proof.
  intros H. rewrite <- (StrFacts.append_nil_r x). now rewrite lstrip_all.
Qed.

Lemma forallb_lstrip (p q : ascii -> bool) (x : string) :
  Str.forallb q x = true -> Str.forallb q (Str.lstrip_by p x) = true.
Proof.
  induction x as [|c x IH]; [reflexivity|]. cbn [Str.forallb Str.lstrip_by].
  intros H. destruct (p c).
  - apply IH. now apply andb_true_iff in H.
  - exact H.
Qed.

Lemma forallb_rstrip (p q : ascii -> bool) (x : string) :
  Str.forallb q x = true -> Str.forallb q (Str.rstrip_by p x) = true.
Proof.
  intros H. unfold Str.rstrip_by. rewrite PriceConverterFacts.forallb_rev.
  apply forallb_lstrip. now rewrite PriceConverterFacts.forallb_rev.
Qed.

(** Stripping [a ++ b] on the right: what is stripped off [b], and off
    [a] only when nothing of [b] is left. *)
Lemma rstrip_app (p : ascii -> bool) (a b : string) :
  Str.rstrip_by p (a ++ b)
  = if Str.forallb p b then Str.rstrip_by p a else a ++ Str.rstrip_by p b.
Proof.
  unfold Str.rstrip_by. rewrite StrFacts.rev_append.
  destruct (Str.forallb p b) eqn:B.
  - rewrite lstrip_all; [reflexivity | now rewrite PriceConverterFacts.forallb_rev].
  - rewrite lstrip_stops by now rewrite PriceConverterFacts.forallb_rev.
    now rewrite StrFacts.rev_append, StrFacts.rev_involutive.
Qed.

Lemma rstrip_none (p : ascii -> bool) (x : string) :
  Str.forallb (fun c => negb (p c)) x = true -> Str.rstrip_by p x = x.
Proof.
  intros H. unfold Str.rstrip_by.
  rewrite lstrip_none by now rewrite PriceConverterFacts.forallb_rev.
  apply StrFacts.rev_involutive.
Qed.

Lemma rstrip_of_all (p : ascii -> bool) (x : string) :
  Str.forallb p x = true -> Str.rstrip_by p x = "".
Proof.
  intros H. unfold Str.rstrip_by.
  rewrite lstrip_of_all by now rewrite PriceConverterFacts.forallb_rev. reflexivity.
Qed.

Lemma rstrip_empty_iff (p : ascii -> bool) (x : string) :
  Str.rstrip_by p x = "" <-> Str.forallb p x = true.
Proof.
  split; [|apply rstrip_of_all].
  intros H. destruct (Str.forallb p x) eqn:F; [reflexivity|].
  exfalso. unfold Str.rstrip_by in H.
  assert (R : Str.forallb p (Str.rev x) = false) by now rewrite PriceConverterFacts.forallb_rev.
  assert (N : Str.lstrip_by p (Str.rev x) <> "").
  { clear H. induction (Str.rev x) as [|c y IH]; [discriminate|].
    cbn [Str.forallb Str.lstrip_by] in *. destruct (p c); [now apply IH | discriminate]. }
  apply N. rewrite <- (StrFacts.rev_involutive (Str.lstrip_by p (Str.rev x))), H.
  reflexivity.
Qed.

End StripFacts.

(** ** format_number (services/price_converter.py) *)

Module FormatFacts.

Import PriceArticles.

Import FormatSpec.

Lemma digit_not_dot (c : ascii) : Str.is_digit c = true -> not_dot c = true.
Proof.
  intros H. unfold not_dot, is_char. apply negb_true_iff, Ascii.eqb_neq.
  intros ->. discriminate H.
Qed.

(** X11: whatever text the interpreter produces for the number, with a
    decimal point between a part without points and a part of digits,
    [format_number] keeps the part before the point whole, zeros at its
    end included, and removes from the part after it exactly the zeros at
    the end, together with the point when nothing is left after it; a
    text without a point is returned as it is. *)
Theorem X11_format_number_keeps_the_integer_part
    (format_fixed : bool -> pyfloat -> nat -> string)
    (number : pyfloat) (decimal_places : nat) (ip fp : string) :
  format_fixed true number decimal_places = ip ++ "." ++ fp ->
  Str.forallb not_dot ip = true ->
  Str.forallb Str.is_digit fp = true ->
  format_number format_fixed number decimal_places
  = match Str.rstrip_by (is_char "0"%char) fp with
    | EmptyString => ip
    | String c t => ip ++ "." ++ String c t
    end.
Proof.
  intros E Hip Hfp. unfold format_number. rewrite E.
  assert (C : Str.contains "." (ip ++ "." ++ fp) = true)
    by (apply TextFacts.contains_iff; now exists ip, fp).
  rewrite C.
  set (z := Str.rstrip_by (is_char "0"%char) fp).
  assert (Hz : Str.forallb Str.is_digit z = true) by now apply StripFacts.forallb_rstrip.
  assert (A : Str.rstrip_by (is_char "0"%char) (ip ++ "." ++ fp) = ip ++ "." ++ z).
  { rewrite StripFacts.rstrip_app.
    destruct (Str.forallb (is_char "0"%char) ("." ++ fp)) eqn:F; [discriminate F|].
    f_equal. change ("." ++ fp) with (String "."%char "" ++ fp).
    rewrite StripFacts.rstrip_app.
    destruct (Str.forallb (is_char "0"%char) fp) eqn:G.
    - unfold z. rewrite (StripFacts.rstrip_of_all _ fp G). reflexivity.
    - reflexivity. }
  rewrite A.
  destruct z as [|c t] eqn:Z.
  - change (ip ++ "." ++ "") with (ip ++ String "."%char "").
    rewrite StripFacts.rstrip_app.
    change (Str.forallb (is_char "."%char) ".") with true. cbv iota.
    now apply StripFacts.rstrip_none.
  - rewrite <- StrFacts.append_assoc, StripFacts.rstrip_app.
    assert (N : Str.forallb not_dot (String c t) = true)
      by (apply (CharMapFacts.forallb_weaken Str.is_digit); [apply digit_not_dot | exact Hz]).
    rewrite (StripFacts.rstrip_none _ _ N).
    destruct (Str.forallb (is_char "."%char) (String c t)) eqn:F.
    + exfalso. cbn [Str.forallb] in F, N.
      apply andb_true_iff in F as [F _]. apply andb_true_iff in N as [N _].
      unfold not_dot in N. rewrite F in N. discriminate N.
    + now rewrite StrFacts.append_assoc.
Qed.

Lemma X11_format_number_witness :
  format_number (fun _ _ _ => "1,200.50") (Finite (Q2Qc (2401 # 2))) 2 = "1,200.5".
Proof.
  apply (X11_format_number_keeps_the_integer_part
           (fun _ _ _ => "1,200.50") (Finite (Q2Qc (2401 # 2))) 2 "1,200" "50");
    reflexivity.
Defined.

End FormatFacts.

(** ** Numeric queries end to end (services/price_converter.py,
    services/rates.py) *)

Module ConversionFacts.

Import PriceArticles.

Lemma get_returns_composite (t : Qc) (cg bn : option pyfloat) (now : Qc) (c : Rates.cache) :
  fst (fst (Rates.get_ton_price t cg bn now c))
  = Rates.ton_usd (snd (Rates.get_ton_price t cg bn now c)).
Proof. reflexivity. Qed.

Lemma ids_differ (query_id : string) :
  "price_error_" ++ query_id <> "price_conversion_" ++ query_id.
Proof. cbn [append]. intros H. discriminate H. Qed.

Lemma dual_article (format_fixed : bool -> pyfloat -> nat -> string)
    (amount ton_price : pyfloat) (info : Rates.price_info) (query_id : string)
    (c : Rates.cache) (rate : pyfloat) :
  Rates.ton_usd c = Some rate ->
  exists a,
    create_dual_conversion_article format_fixed amount ton_price info query_id c = Returns a
    /\ id a = if FloatArith.is_zero rate
              then "price_error_" ++ query_id
              else "price_conversion_" ++ query_id.
Proof.
  intros R. unfold create_dual_conversion_article, RatesMore.convert_usd_to_ton,
    RatesMore.convert_ton_to_usd, FloatArith.div.
  rewrite R. destruct (FloatArith.is_zero rate); cbn [bind]; eexists; split; reflexivity.
Qed.

(** X12: a numeric query never divides by zero and never raises.  It is
    answered with exactly one article: the "price data unavailable"
    article when, after [get_ton_price], the composite rate is unset or
    zero, and a conversion article otherwise. *)
Theorem X12_conversion_never_divides_by_zero
    (format_fixed : bool -> pyfloat -> nat -> string)
    (query query_id : string) (current_time : Qc)
    (coingecko_price binance_price : option pyfloat) (now : Qc) (c : Rates.cache) :
  let c' := snd (Rates.get_ton_price current_time coingecko_price binance_price now c) in
  snd (create_price_conversion_result format_fixed query query_id current_time
         coingecko_price binance_price now c) = c'
  /\ exists a,
       fst (create_price_conversion_result format_fixed query query_id current_time
              coingecko_price binance_price now c) = Returns [a]
       /\ id a = match Rates.ton_usd c' with
                 | None => "price_error_" ++ query_id
                 | Some rate =>
                     if FloatArith.is_zero rate
                     then "price_error_" ++ query_id
                     else "price_conversion_" ++ query_id
                 end
       /\ (a = create_price_error_article query_id
           <-> Rates.ton_usd c' = None
               \/ exists rate, Rates.ton_usd c' = Some rate
                               /\ FloatArith.is_zero rate = true).
Proof.
  intros c'. subst c'. unfold create_price_conversion_result.
  rewrite PriceConverterFacts.process_number_input_total.
  pose proof (get_returns_composite current_time coingecko_price binance_price now c) as G.
  destruct (Rates.get_ton_price current_time coingecko_price binance_price now c)
    as [[ton_price info] c1] eqn:E.
  cbn [fst snd] in G. cbn [snd]. subst ton_price.
  destruct (Rates.ton_usd c1) as [rate|] eqn:R.
  - set (shown := match Rates.info_source1 info, Rates.info_source2 info with
                  | Some s1, Some s2 =>
                      if FloatArith.truthy (Rates.info_source1 info)
                         && FloatArith.truthy (Rates.info_source2 info)
                      then FloatOps.half (FloatOps.add s1 s2)
                      else rate
                  | _, _ => rate
                  end).
    set (amount := match Float.py_float (Str.replace "," "." query) with
                   | Returns v => v
                   | Raises _ => Finite (Z2Qc 0)
                   end).
    destruct (dual_article format_fixed amount shown info query_id c1 rate R)
      as (a & A & I).
    split; [reflexivity|]. exists a. cbn [fst]. rewrite A. cbn [bind].
    split; [reflexivity|]. split; [exact I|].
    destruct (FloatArith.is_zero rate) eqn:Z.
    + split; [intros _; right; now exists rate|].
      intros _. unfold create_dual_conversion_article, RatesMore.convert_usd_to_ton in A.
      rewrite R, Z in A. cbn [bind] in A. now injection A as <-.
    + split.
      * intros ->. cbn [id create_price_error_article] in I.
        now elim (ids_differ query_id).
      * intros [H | (r & H & K)]; [discriminate|]. congruence.
  - split; [reflexivity|]. exists (create_price_error_article query_id).
    repeat split; auto.
Qed.

End ConversionFacts.

(** ** Missing prices (services/rates.py) *)

Module BinanceFacts.

Lemma round_zero : FloatOps.round (Finite (Z2Qc 0)) 4 = Finite (Z2Qc 0).
Proof. apply QcFacts.finite_eq. vm_compute. reflexivity. Qed.

Lemma half_plus_zero (x : Qc) :
  FloatOps.half (FloatOps.add (Finite x) (Finite (Z2Qc 0))) = Finite (x / Z2Qc 2)%Qc.
Proof.
  cbn [FloatOps.add FloatOps.half]. do 2 f_equal.
  change (Z2Qc 0) with 0%Qc. apply Qcplus_0_r.
Qed.

(** X13: a 200 answer of Binance that is an object without the key
    ["price"] is read as the price 0.0 and counts as a success: with a
    CoinGecko price [x] the composite becomes [round(x / 2, 4)], and
    without one it becomes 0.0, whatever the cache held; any status other
    than 200 is a failure. *)
Theorem X13_missing_binance_price (fields : list (string * Json.json)) :
  Json.lookup "price" fields = None ->
  let binance := RatesMore.fetch_binance_price (Handler.Reply 200 (Some (Json.JObj fields))) in
  binance = Some (Finite (Z2Qc 0))
  /\ (forall x now c,
         Rates.ton_usd (Rates.update_rates (Some (Finite x)) binance now c)
         = Some (FloatOps.round (Finite (x / Z2Qc 2)%Qc) 4))
  /\ (forall now c,
         Rates.ton_usd (Rates.update_rates None binance now c) = Some (Finite (Z2Qc 0)))
  /\ (forall status body,
         status <> 200%Z ->
         RatesMore.fetch_binance_price (Handler.Reply status body) = None).
Proof.
  intros H binance.
  assert (B : binance = Some (Finite (Z2Qc 0))).
  { unfold binance, RatesMore.fetch_binance_price. cbn [Z.eqb Pos.eqb]. now rewrite H. }
  split; [exact B|]. rewrite B. split; [|split].
  - intros x now c. rewrite RatesFacts.update_rates_ton_usd. now rewrite half_plus_zero.
  - intros now c. rewrite RatesFacts.update_rates_ton_usd. now rewrite round_zero.
  - intros status body N. unfold RatesMore.fetch_binance_price.
    apply Z.eqb_neq in N. now rewrite N.
Qed.

Lemma X13_missing_binance_price_witness :
  RatesMore.fetch_binance_price
    (Handler.Reply 200 (Some (Json.JObj [("code", Json.JStr "-1121")])))
  = Some (Finite (Z2Qc 0)).
Proof.
  apply (X13_missing_binance_price [("code", Json.JStr "-1121")]). reflexivity.
Defined.

End BinanceFacts.

(** ** The floor-price message and the empty query (services/getgems.py,
    services/result_articles.py, bot.py) *)

Module FloorMessageFacts.

Import FloorMessage.

Lemma telegram_number_appends (x y : string) :
  format_number_for_telegram (x ++ y)
  = format_number_for_telegram x ++ format_number_for_telegram y.
Proof.
  unfold format_number_for_telegram.
  now rewrite !CharMapFacts.replace_single, !CharMapFacts.concat_map_app.
Qed.

Lemma telegram_number_one (c : ascii) :
  format_number_for_telegram (String c "") = NumberSpec.keep c.
Proof.
  destruct c as [[|] [|] [|] [|] [|] [|] [|] [|]]; vm_compute; reflexivity.
Qed.

(** X14: [format_number_for_telegram] takes out spaces, round brackets
    and dashes and nothing else; in particular a plus sign at the front
    stays, although the comment in the source says it is removed. *)
Theorem X14_telegram_number_keeps_the_plus (number : string) :
  format_number_for_telegram number = CharMap.concat_map NumberSpec.keep number
  /\ format_number_for_telegram (String "+"%char number)
     = String "+"%char (format_number_for_telegram number).
Proof.
  assert (E : forall s, format_number_for_telegram s = CharMap.concat_map NumberSpec.keep s).
  { induction s as [|c s IH]; [reflexivity|].
    change (String c s) with (String c "" ++ s).
    rewrite telegram_number_appends, IH, telegram_number_one. reflexivity. }
  split; [apply E|]. rewrite !E. reflexivity.
Qed.

Lemma buttons_at_most_two (number item_address : option string) :
  let telegram_row :=
    if Str.truthy number
    then match create_telegram_number_button number with
         | Some telegram_button => [[telegram_button]]
         | None => []
         end
    else [] in
  let address_row :=
    if Str.truthy item_address
    then match create_floor_price_button item_address with
         | Some getgems_button =>
             match create_marketapp_button item_address with
             | Some marketapp_button => [[getgems_button; marketapp_button]]
             | None => [[getgems_button]]
             end
         | None => []
         end
    else [] in
  List.length (telegram_row ++ address_row)%list <= 2.
Proof.
  cbv zeta.
  destruct (Str.truthy number); [destruct (create_telegram_number_button number)|];
    (destruct (Str.truthy item_address);
     [destruct (create_floor_price_button item_address);
      [destruct (create_marketapp_button item_address)|]|]);
    cbn [List.length app]; lia.
Qed.

(** X15: [get_number_floor_price_message] has three outcomes, decided by
    the floor-price cache [get_floor_price] leaves and by the cached
    rate: without a floor price the "unavailable" message without
    buttons; with a floor price and a rate a message with at most two
    rows of buttons; with a floor price but no rate a [TypeError], raised
    by the format [:.2f] applied to [None]. *)
Theorem X15_floor_message_needs_a_rate
    (format_fixed : bool -> pyfloat -> nat -> string) (float_str : pyfloat -> string)
    (current_time : Qc) (fetched : option GetGems.floor_data) (now : Qc)
    (floor : GetGems.cache) (rates : Rates.cache) :
  let floor' := fst (GetGems.get_floor_price current_time fetched now floor) in
  let result :=
    get_number_floor_price_message format_fixed float_str current_time fetched now
      floor rates in
  snd result = floor'
  /\ (GetGems.price floor' = None -> fst result = Returns unavailable)
  /\ (GetGems.price floor' <> None -> Rates.ton_usd rates = None ->
      fst result = Raises "TypeError")
  /\ (GetGems.price floor' <> None -> Rates.ton_usd rates <> None ->
      exists m, fst result = Returns m /\ List.length (buttons m) <= 2).
Proof.
  intros floor' result. subst floor' result. unfold get_number_floor_price_message.
  destruct (GetGems.get_floor_price current_time fetched now floor) as [floor_data age].
  cbn [fst]. destruct (GetGems.price floor_data) as [price_ton|] eqn:P.
  - cbn [snd fst]. split; [reflexivity|]. split; [discriminate|]. split.
    + intros _ R. unfold RatesMore.convert_ton_to_usd. rewrite R. reflexivity.
    + intros _ R. unfold RatesMore.convert_ton_to_usd.
      destruct (Rates.ton_usd rates) as [rate|]; [|congruence].
      cbn [format_2f].
      destruct (FloatArith.truthy (Some (FloatArith.mul price_ton rate)));
        cbn [bind]; eexists; (split; [reflexivity|]); cbn [buttons];
        apply buttons_at_most_two.
  - cbn [snd fst]. split; [reflexivity|]. split; [reflexivity|].
    split; intros H; now elim H.
Qed.

Lemma X15_floor_message_witness :
  let floor := CacheShape.from_fetch
                 {| GetGems.fd_price := Finite (Z2Qc 250);
                    GetGems.fd_number := Some "+888 0123 4567";
                    GetGems.fd_item_address := Some "EQabc" |} (Z2Qc 10) in
  fst (get_number_floor_price_message (fun _ _ _ => "0.00") (fun _ => "250.0")
         (Z2Qc 20) None (Z2Qc 20) floor Rates.rates_cache)
  = Raises "TypeError".
Proof.
  intros floor.
  apply (X15_floor_message_needs_a_rate (fun _ _ _ => "0.00") (fun _ => "250.0")
           (Z2Qc 20) None (Z2Qc 20) floor Rates.rates_cache);
    [discriminate | reflexivity].
Defined.

End FloorMessageFacts.

Module EmptyQueryFacts.

Import EmptyQuery.

(** X16: the answer to a blank query fails exactly when, after the rate
    article is made and the floor price is looked up, a floor price is
    known but no rate is; in every other case it carries the three results
    (prompt, rate, floor price) with cache time [EMPTY_QUERY_CACHE_TIME].
    The exception is the [TypeError] of the floor-price message. *)
Theorem X16_empty_query_needs_a_rate
    (format_fixed : bool -> pyfloat -> nat -> string) (float_str : pyfloat -> string)
    (rate_time floor_time : Qc) (u : upstream) (c : caches) :
  let rates' :=
    snd (Rates.get_ton_price rate_time (coingecko_price u) (binance_price u)
           (rates_now u) (rates c)) in
  let floor' :=
    fst (GetGems.get_floor_price floor_time (floor_fetched u) (floor_now u) (floor c)) in
  let result := answer_empty_query format_fixed float_str rate_time floor_time u c in
  snd result = {| rates := rates'; floor := floor' |}
  /\ (fst result = Raises "TypeError"
      <-> GetGems.price floor' <> None /\ Rates.ton_usd rates' = None)
  /\ (fst result = Raises "TypeError"
      \/ exists a, fst result = Returns a
                   /\ prompt a = empty_query_article
                   /\ cache_time a = Config.EMPTY_QUERY_CACHE_TIME).
Proof.
  intros rates' floor' result. subst rates' floor' result.
  unfold answer_empty_query, get_ton_rate_article, get_number_floor_price_article.
  destruct (Rates.get_ton_price rate_time (coingecko_price u) (binance_price u)
              (rates_now u) (rates c)) as [[ton_price info] rates1].
  cbn [snd].
  unfold FloorMessage.get_number_floor_price_message.
  destruct (GetGems.get_floor_price floor_time (floor_fetched u) (floor_now u) (floor c))
    as [floor_data age].
  cbn [fst]. destruct (GetGems.price floor_data) as [price_ton|] eqn:P.
  - unfold RatesMore.convert_ton_to_usd.
    destruct (Rates.ton_usd rates1) as [rate|] eqn:R.
    + cbn [FloorMessage.format_2f].
      destruct (FloatArith.truthy (Some (FloatArith.mul price_ton rate)));
        cbn [bind fst snd]; (split; [reflexivity|]); (split;
          [split; [discriminate | intros [_ H]; discriminate H]
          | right; eexists; repeat split]).
    + cbn [FloatArith.truthy FloorMessage.format_2f bind fst snd].
      split; [reflexivity|]. split.
      * split; [intros _; split; [discriminate | reflexivity] | reflexivity].
      * now left.
  - cbn [bind fst snd]. split; [reflexivity|]. split.
    + split; [discriminate | intros [H _]; now elim H].
    + right. eexists. repeat split.
Qed.

End EmptyQueryFacts.

(** ** The answers of [handle_query] (services/handler.py) *)

Module AnswerFacts.

Import ResultArticles Handler.

Lemma star_removed (s : string) :
  Str.forallb AnswerSpec.not_star (Str.replace "*" "" s) = true.
Proof.
  rewrite CharMapFacts.replace_single.
  induction s as [|c s IH]; [reflexivity|].
  cbn [CharMap.concat_map]. rewrite StrFacts.forallb_append, IH, andb_true_r.
  unfold CharMap.swap. destruct (Ascii.eqb c "*") eqn:E; [reflexivity|].
  cbn [Str.forallb]. unfold AnswerSpec.not_star. now rewrite E.
Qed.

(** X17: whatever Fragment and tonapi reply, [handle_query] answers with
    one article: either the error article, cached for
    [ERROR_CACHE_TIME], or an article with the id [result], a title
    without asterisks, the username in the description and the thumbnail
    of Fragment, cached for [UNAVAILABLE_USERNAME_CACHE_TIME] or
    [USERNAME_RESULT_CACHE_TIME]. *)
Theorem X17_one_article_per_answer (w : world) (query : string) :
  let a := fst (handle_query w query) in
  a = error_answer query
  \/ exists r, results a = [r]
               /\ AnswerSpec.result_shape query r
               /\ (cache_time a = Config.UNAVAILABLE_USERNAME_CACHE_TIME
                   \/ cache_time a = Config.USERNAME_RESULT_CACHE_TIME).
Proof.
  assert (U : let a := unavailable_answer query in
              exists r, results a = [r]
               /\ AnswerSpec.result_shape query r
               /\ (cache_time a = Config.UNAVAILABLE_USERNAME_CACHE_TIME
                   \/ cache_time a = Config.USERNAME_RESULT_CACHE_TIME)).
  { eexists. split; [reflexivity|]. split; [|now left].
    repeat split. apply star_removed. }
  cbv zeta in *. unfold handle_query.
  destruct (get_fragment_page (fragment w query)) as [[| |p]|e];
    [now right | now right | | now left].
  destruct (Str.is_empty (html_text p)); [now right|].
  destruct (get_username_status (Soup.document (parsed p))) as [status|]; [|now left].
  destruct (Str.is_empty status); [now left|].
  assert (R : forall (long_message : string) (keyboard_rows : list (list button))
                     (sent : list request),
            let a := fst
              ({| results :=
                    [ {| id := "result";
                         title := Str.replace "*" "" (get_status_message status query);
                         description := "Fragment information for @" ++ query;
                         message_text := long_message;
                         reply_markup := nonempty_list keyboard_rows;
                         thumbnail_url := Config.FRAGMENT_THUMBNAIL_URL |} ];
                  cache_time := Config.USERNAME_RESULT_CACHE_TIME |}, sent) in
            a = error_answer query
            \/ exists r, results a = [r]
               /\ AnswerSpec.result_shape query r
               /\ (cache_time a = Config.UNAVAILABLE_USERNAME_CACHE_TIME
                   \/ cache_time a = Config.USERNAME_RESULT_CACHE_TIME)).
  { intros long_message keyboard_rows sent. cbv zeta. cbn [fst].
    right. eexists. split; [reflexivity|]. split; [|now right].
    repeat split. apply star_removed. }
  cbv zeta in R.
  destruct (String.eqb status "Available"); [apply R|].
  destruct (String.eqb status "On auction").
  - destruct (on_auction_rows w (Soup.document (parsed p)) (html_text p) query)
      as [[[keyboard_rows|e] minimum_bid_info] sent]; [apply R | now left].
  - destruct (String.eqb status "Sold"); [apply R|].
    destruct (String.eqb status "For sale"); apply R.
Qed.

End AnswerFacts.

(** ** The amounts in US dollars (services/handler.py) *)

Module UsdFacts.

Import Handler.

Lemma span_splits (p : ascii -> bool) (s : string) :
  s = fst (Float.span p s) ++ snd (Float.span p s)
  /\ Str.forallb p (fst (Float.span p s)) = true
  /\ match snd (Float.span p s) with
     | EmptyString => True
     | String c _ => p c = false
     end.
Proof.
  induction s as [|c s (E & F & R)]; [now cbn|].
  cbn [Float.span]. destruct (p c) eqn:P.
  - destruct (Float.span p s) as [a b]. cbn [fst snd Str.forallb append] in *.
    rewrite P, F. split; [now rewrite E at 1 | now split].
  - cbn [fst snd Str.forallb append]. now rewrite P.
Qed.

Lemma span_empty (p : ascii -> bool) (c : ascii) (s : string) :
  fst (Float.span p (String c s)) = "" <-> p c = false.
Proof.
  cbn [Float.span]. destruct (p c).
  - destruct (Float.span p s). cbn [fst]. split; discriminate.
  - now cbn.
Qed.

Lemma no_amount_iff (s : string) :
  search_usd s = None
  <-> forall pre c post, s = pre ++ String "$" (String c post) -> amount_class c = false.
Proof.
  induction s as [|a s IH].
  - split; [|reflexivity]. intros _ [|b pre] c post E; discriminate E.
  - cbn [search_usd]. destruct (Ascii.eqb a "$") eqn:A.
    + apply Ascii.eqb_eq in A. subst a.
      destruct (Float.span amount_class s) as [run rest] eqn:S.
      destruct (Str.is_empty run) eqn:N.
      * assert (run = "") as -> by now destruct run.
        rewrite IH. split.
        -- intros H [|b pre] c post E.
           ++ injection E as ->.
              apply (span_empty amount_class c post). now rewrite S.
           ++ injection E as _ ->. now apply (H pre c post).
        -- intros H pre c post ->. now apply (H (String "$" pre) c post).
      * split; [discriminate|]. intros H. exfalso.
        destruct s as [|c s]; [cbn in S; injection S as <- _; discriminate N|].
        assert (P : amount_class c = false) by now apply (H "" c s).
        apply (span_empty amount_class c s) in P. rewrite S in P. cbn [fst] in P.
        subst run. discriminate N.
    + rewrite IH. split.
      * intros H [|b pre] c post E.
        -- injection E as -> _. now rewrite Ascii.eqb_refl in A.
        -- injection E as _ ->. now apply (H pre c post).
      * intros H pre c post ->. now apply (H (String a pre) c post).
Qed.

(** X18: the amount read in a text with [re.search(r"\$([0-9,.]+)", _)] is
    the longest run of digits, commas and periods after the first dollar
    sign that is followed by one: it is not empty, it is not followed by
    another such character, and no amount is found in the text before its
    dollar sign.  No amount is found exactly when no dollar sign of the
    text is followed by a digit, a comma or a period. *)
Theorem X18_dollar_amount_is_leftmost_longest (s : string) :
  match search_usd s with
  | Some run =>
      exists pre post,
        s = pre ++ "$" ++ run ++ post
        /\ run <> ""
        /\ Str.forallb amount_class run = true
        /\ search_usd pre = None
        /\ match post with
           | EmptyString => True
           | String c _ => amount_class c = false
           end
  | None =>
      forall pre c post, s = pre ++ String "$" (String c post) -> amount_class c = false
  end.
Proof.
  destruct (search_usd s) as [run|] eqn:E; [|now apply no_amount_iff].
  revert E. induction s as [|a s IH]; [discriminate|].
  cbn [search_usd]. destruct (Ascii.eqb a "$") eqn:A.
  - apply Ascii.eqb_eq in A. subst a.
    destruct (span_splits amount_class s) as (S & F & R).
    destruct (Float.span amount_class s) as [run' rest]. cbn [fst snd] in *.
    destruct (Str.is_empty run') eqn:N.
    + intros E. destruct (IH E) as (pre & post & -> & H1 & H2 & H3 & H4).
      exists (String "$" pre), post. repeat split; try assumption.
      cbn [search_usd]. rewrite Ascii.eqb_refl.
      destruct pre as [|c pre]; [reflexivity|].
      destruct (Float.span amount_class (String c pre)) as [r0 r1] eqn:S0.
      assert (r0 = "") as ->; [|exact H3].
      assert (run' = "") by now destruct run'. subst run'. cbn [append] in S.
      assert (P : amount_class c = false).
      { rewrite <- S in R. exact R. }
      apply (span_empty amount_class c pre) in P. now rewrite S0 in P.
    + intros [= <-]. exists "", rest. repeat split; try assumption.
      * cbn [append]. now rewrite <- S.
      * intros ->. discriminate N.
  - intros E. destruct (IH E) as (pre & post & -> & H1 & H2 & H3 & H4).
    exists (String a pre), post. repeat split; try assumption.
    cbn [search_usd]. now rewrite A.
Qed.

End UsdFacts.

(** ** The rate shown and the rate used (services/rates.py,
    services/price_converter.py) *)

Module ShownRateFacts.

Import PriceArticles.

Lemma update_rates_sources (cg bn : option pyfloat) (now : Qc) (c : Rates.cache) :
  Rates.source1 (Rates.update_rates cg bn now c) = cg
  /\ Rates.source2 (Rates.update_rates cg bn now c) = bn.
Proof.
  unfold Rates.update_rates. destruct cg, bn; cbn; try (now split).
  destruct (Rates.ton_usd c); now split.
Qed.

Lemma update_rates_coherent (cg bn : option pyfloat) (now : Qc) (c : Rates.cache) :
  RateSpec.coherent (Rates.update_rates cg bn now c).
Proof.
  unfold RateSpec.coherent.
  destruct (update_rates_sources cg bn now c) as [-> ->].
  rewrite RatesFacts.update_rates_ton_usd. now destruct cg, bn.
Qed.

Lemma step_coherent (c : Rates.cache) (e : Rates.event) :
  RateSpec.coherent c -> RateSpec.coherent (Rates.step c e).
Proof.
  intros H. destruct e as [cg bn now | t cg bn now].
  - apply update_rates_coherent.
  - destruct (RatesFacts.get_step_cases t cg bn now c) as [-> | [-> _]];
      [apply update_rates_coherent | exact H].
Qed.

Lemma run_coherent (es : list Rates.event) :
  forall c, RateSpec.coherent c -> RateSpec.coherent (Rates.run es c).
Proof.
  unfold Rates.run. induction es as [|e es IH]; intros c H; cbn [fold_left]; [exact H|].
  apply IH. now apply step_coherent.
Qed.

(** X19: in a process that started with the empty cache and went through
    any ticks of the update loop and any calls of [get_ton_price], the
    rate a conversion article shows and the rate its two conversions use
    agree to four decimal places: the article shows "1 TON = $" followed
    by a price whose rounding to four places is the cached composite, the
    divisor and the factor of the conversions. *)
Theorem X19_shown_rate_rounds_to_used_rate
    (format_fixed : bool -> pyfloat -> nat -> string)
    (query query_id : string) (es : list Rates.event) (current_time : Qc)
    (coingecko_price binance_price : option pyfloat) (now : Qc) (rate : pyfloat) :
  let c := Rates.run es Rates.rates_cache in
  let c' := snd (Rates.get_ton_price current_time coingecko_price binance_price now c) in
  Rates.ton_usd c' = Some rate ->
  FloatArith.is_zero rate = false ->
  exists a shown,
    fst (create_price_conversion_result format_fixed query query_id current_time
           coingecko_price binance_price now c) = Returns [a]
    /\ description a = "💎 1 TON = $" ++ format_number format_fixed shown TON_DECIMAL_PLACES
    /\ FloatOps.round shown 4 = rate.
Proof.
  intros c c' R Z.
  assert (I : RateSpec.coherent c' /\ CacheSpec.rounded c').
  { change c' with (Rates.run [Rates.Get current_time coingecko_price binance_price now] c).
    unfold c. split.
    - apply run_coherent, run_coherent. exact I.
    - apply RatesFacts.run_rounded, RatesFacts.run_rounded. exact I. }
  destruct I as [C D]. unfold RateSpec.coherent in C. unfold CacheSpec.rounded in D.
  rewrite R in D.
  unfold create_price_conversion_result.
  rewrite PriceConverterFacts.process_number_input_total.
  assert (E : Rates.get_ton_price current_time coingecko_price binance_price now c
              = ((Rates.ton_usd c',
                  {| Rates.info_source1 := Rates.source1 c';
                     Rates.info_source2 := Rates.source2 c';
                     Rates.info_last_update := Rates.last_update c' |}), c'))
    by reflexivity.
  rewrite E, R. cbn [Rates.info_source1 Rates.info_source2 fst].
  unfold create_dual_conversion_article, RatesMore.convert_usd_to_ton,
    RatesMore.convert_ton_to_usd, FloatArith.div.
  rewrite R, Z. cbn [bind].
  eexists. eexists. split; [reflexivity|]. cbn [description]. split; [reflexivity|].
  destruct (Rates.source1 c') as [s1|], (Rates.source2 c') as [s2|]; try exact D.
  destruct (FloatArith.truthy (Some s1) && FloatArith.truthy (Some s2)); [|exact D].
  rewrite R in C. now injection C as ->.
Qed.

Lemma X19_shown_rate_witness :
  exists a shown,
    fst (create_price_conversion_result (fun _ _ _ => "6.0000") "100" "42" (Z2Qc 20)
           None None (Z2Qc 20)
           (Rates.run [Rates.Tick (Some CacheSpec.five) (Some CacheSpec.seven) (Z2Qc 10)]
              Rates.rates_cache)) = Returns [a]
    /\ description a = "💎 1 TON = $" ++ format_number (fun _ _ _ => "6.0000") shown
                                          TON_DECIMAL_PLACES
    /\ FloatOps.round shown 4 = CacheSpec.six.
Proof.
  apply (X19_shown_rate_rounds_to_used_rate (fun _ _ _ => "6.0000") "100" "42"
           [Rates.Tick (Some CacheSpec.five) (Some CacheSpec.seven) (Z2Qc 10)]
           (Z2Qc 20) None None (Z2Qc 20) CacheSpec.six).
  - vm_compute. apply f_equal, QcFacts.finite_eq. reflexivity.
  - reflexivity.
Defined.

End ShownRateFacts.

(** ** Letter case in queries (bot.py) *)

Module CaseFacts.

















End CaseFacts.
